(** * SparkMinda dashboard: threshold store and chart annotation

    A shallow embedding of the computational core of the dashboard
    component [SparkMindaDashboard] with its [PerformanceChart], and of
    the projection of its earlier revision, [frontend/src/App.js]:

    - [processedChartData]: projection of the fetched readings onto the
      selected parameter;
    - [yDomain], [minPoint], [maxPoint], [visibleMinMaxPoints]: the
      value axis bounds and the labelled extrema of [PerformanceChart];
    - [getCurrentThreshold], [updateThreshold]: the ten threshold slots
      and their dispatch on the selected parameter.

    Numbers.  A number carried by the data is a finite double, held by
    its exact value, a rational.  Results of arithmetic live in
    [number], which adds the two infinities and NaN.  Addition,
    subtraction and multiplication are those of binary64: the exact
    result, rounded to the nearest double with ties to the even
    mantissa, gradual underflow, and overflow to an infinity
    ([round64]).  The two zeros are one rational; a literal beyond
    the range of binary64, which [JSON.parse] reads as an infinity,
    is not among the values of a field; and the engine's limit on the
    number of arguments of a call is not modelled. *)

From Stdlib Require Import QArith Qround Qminmax Qpower Qreduction Lqa ZArith List Ascii
  String Bool Lia.
From Stdlib Require Import Floats.
From stdpp Require Import gmap strings.
Import ListNotations.

Local Open Scope string_scope.
Local Open Scope list_scope.

(** ** JavaScript values *)

(** What [JSON.parse] can put in a field, plus [undefined] for a
    missing key.  [VObject] stands for a nested object or array; the
    code below only asks for its type and its truthiness. *)
Inductive value : Type :=
| VUndefined
| VNull
| VBool (b : bool)
| VNum (q : Q)
| VStr (s : string)
| VObject.

(** [typeof v] *)
Definition typeof (v : value) : string :=
  match v with
  | VUndefined => "undefined"
  | VNull => "object"
  | VBool _ => "boolean"
  | VNum _ => "number"
  | VStr _ => "string"
  | VObject => "object"
  end.

(** ToBoolean: [undefined], [null], [false], [0] and [''] are falsy. *)
Definition truthy (v : value) : bool :=
  match v with
  | VUndefined => false
  | VNull => false
  | VBool b => b
  | VNum q => negb (Qeq_bool q 0)
  | VStr s => negb (String.eqb s "")
  | VObject => true
  end.

(** [a || b]: the left operand when it is truthy, else the right one.
    No conversion to boolean takes place. *)
Definition js_or (a b : value) : value := if truthy a then a else b.

(** A JSON object: string keys to values. *)
Abbreviation object := (gmap string value).

(** [o.k] and [o[k]]: a missing key reads as [undefined].  The keys
    read below are [time], [is_violation] and the selected parameter;
    what [Object.prototype] would answer for a key such as
    [constructor] is not modelled. *)
Definition prop (o : object) (k : string) : value := default VUndefined (o !! k).

(** ** Numbers as computed *)

Inductive number : Type :=
| NaN
| PosInf
| NegInf
| Fin (q : Q).

(** [x < y] on rationals, as a boolean. *)
Definition Qltb (x y : Q) : bool := if Qlt_le_dec x y then true else false.

Definition Qsign_pos (q : Q) : bool := Qltb 0 q.
Definition Qsign_neg (q : Q) : bool := Qltb q 0.

Definition num_neg (a : number) : number :=
  match a with
  | NaN => NaN
  | PosInf => NegInf
  | NegInf => PosInf
  | Fin x => Fin (- x)
  end.

(** *** Rounding to binary64 *)

(** [2^e] for any integer [e]. *)
Definition pow2 (e : Z) : Q := Qpower 2 e.

(** For [q > 0], the integer [e] with [2^e <= q < 2^(e+1)]. *)
Definition ilog2 (q : Q) : Z :=
  let e0 := (Z.log2 (Qnum q) - Z.log2 (Z.pos (Qden q)))%Z in
  if Qle_bool (pow2 e0) q then e0 else (e0 - 1)%Z.

(** The nearest integer, a tie going to the even one. *)
Definition round_half_even (m : Q) : Z :=
  let f := Qfloor m in
  match (m - inject_Z f ?= 1 # 2)%Q with
  | Lt => f
  | Gt => (f + 1)%Z
  | Eq => if Z.even f then f else (f + 1)%Z
  end.

(** The exponent of the last place of the doubles around [q > 0]:
    52 below the leading bit, and never below that of the
    subnormals. *)
Definition ulp_exponent (q : Q) : Z := Z.max (ilog2 q - 52) (-1074).

(** The double nearest to [q > 0]; from [2^1024] on, +Infinity. *)
Definition round_pos (q : Q) : number :=
  let e := ulp_exponent q in
  let v := (inject_Z (round_half_even (q * pow2 (- e))) * pow2 e)%Q in
  if Qle_bool (pow2 1024) v then PosInf else Fin (Qred v).

(** The double nearest to [q], in lowest terms. *)
Definition round64 (q0 : Q) : number :=
  let q := Qred q0 in
  match (q ?= 0)%Q with
  | Eq => Fin 0
  | Gt => round_pos q
  | Lt => num_neg (round_pos (- q))
  end.

(** The value of one of the kernel's binary64 floats, to compare
    [round64] with. *)
Definition number_of_float (f : float) : number :=
  match Prim2SF f with
  | S754_zero _ => Fin 0
  | S754_infinity s => if s then NegInf else PosInf
  | S754_nan => NaN
  | S754_finite s m e =>
      Fin (Qred ((if s then - inject_Z (Z.pos m) else inject_Z (Z.pos m)) * pow2 e))
  end.

(** The exact value of the double nearest to [q] (0 beyond the
    range). *)
Definition double_of (q : Q) : Q :=
  match round64 q with
  | Fin d => d
  | _ => 0
  end.

(** The number a decimal literal of the source denotes. *)
Definition decimal (q : Q) : number := round64 q.

Definition num_add (a b : number) : number :=
  match a, b with
  | NaN, _ | _, NaN => NaN
  | Fin x, Fin y => round64 (x + y)
  | PosInf, NegInf | NegInf, PosInf => NaN
  | PosInf, _ | _, PosInf => PosInf
  | NegInf, _ | _, NegInf => NegInf
  end.

Definition num_sub (a b : number) : number := num_add a (num_neg b).

Definition num_mul (a b : number) : number :=
  match a, b with
  | NaN, _ | _, NaN => NaN
  | Fin x, Fin y => round64 (x * y)
  | Fin x, PosInf | PosInf, Fin x =>
      if Qsign_pos x then PosInf else if Qsign_neg x then NegInf else NaN
  | Fin x, NegInf | NegInf, Fin x =>
      if Qsign_pos x then NegInf else if Qsign_neg x then PosInf else NaN
  | PosInf, PosInf | NegInf, NegInf => PosInf
  | PosInf, NegInf | NegInf, PosInf => NegInf
  end.

(** [a < b]; false as soon as one side is NaN. *)
Definition num_lt (a b : number) : bool :=
  match a, b with
  | NaN, _ | _, NaN => false
  | Fin x, Fin y => Qltb x y
  | NegInf, NegInf => false
  | NegInf, _ => true
  | _, NegInf => false
  | PosInf, _ => false
  | Fin _, PosInf => true
  end.

(** [a > b] *)
Definition num_gt (a b : number) : bool := num_lt b a.

(** [a === b] on two numbers (the two zeros are one rational). *)
Definition num_eq (a b : number) : bool :=
  match a, b with
  | Fin x, Fin y => Qeq_bool x y
  | PosInf, PosInf => true
  | NegInf, NegInf => true
  | _, _ => false
  end.

Definition Math_floor (a : number) : number :=
  match a with
  | Fin x => Fin (inject_Z (Qfloor x))
  | _ => a
  end.

Definition Math_ceil (a : number) : number :=
  match a with
  | Fin x => Fin (inject_Z (Qceiling x))
  | _ => a
  end.

(** [Math.min(...args)]: starts from +Infinity, NaN is contagious, a
    strictly smaller argument replaces the current lowest. *)
Definition min_step (lowest x : number) : number :=
  match lowest, x with
  | NaN, _ | _, NaN => NaN
  | _, _ => if num_lt x lowest then x else lowest
  end.

Definition Math_min (args : list number) : number := fold_left min_step args PosInf.

Definition max_step (highest x : number) : number :=
  match highest, x with
  | NaN, _ | _, NaN => NaN
  | _, _ => if num_gt x highest then x else highest
  end.

Definition Math_max (args : list number) : number := fold_left max_step args NegInf.

(** [v === n] for a field [v] and a computed number [n]: strict
    equality never converts, so only a number can equal a number. *)
Definition strict_equals (v : value) (n : number) : bool :=
  match v with
  | VNum q => num_eq (Fin q) n
  | _ => false
  end.

(** The number held by a value whose [typeof] is ['number']. *)
Definition number_of (v : value) : number :=
  match v with
  | VNum q => Fin q
  | _ => NaN
  end.

(** ** Projection of the readings: [processedChartData] *)

(** The object literal built for each reading. *)
Record point : Type := {
  time : value;
  actual : value;
  is_violation : value
}.

(** [chartData] is the state slot filled from the response; [None] is
    a [null] or [undefined] slot, which [!chartData] catches. *)
Definition processedChartData (chartData : option (list object))
    (selectedParameter : string) : list point :=
  match chartData with
  | None => []
  | Some readings =>
      if (length readings =? 0)%nat then []
      else
        map (fun point =>
               {| time := prop point "time";
                  actual := prop point selectedParameter;
                  is_violation := js_or (prop point "is_violation") (VBool false) |})
            readings
  end.

(** The earlier revision, [frontend/src/App.js]: each reading is
    spread into a fresh object, then [time] and [actual] are set. *)
Module AppJs.

Definition processedChartData (chartData : list object)
    (selectedParameter : string) : list object :=
  map (fun point =>
         <["actual" := prop point selectedParameter]>
           (<["time" := prop point "time"]> point))
      chartData.

End AppJs.

(** ** [PerformanceChart]: axis domain and labelled extrema *)

(** [vs.filter(v => typeof v === 'number')] *)
Definition filter_numbers (vs : list value) : list value :=
  List.filter (fun v => String.eqb (typeof v) "number") vs.

(** [data.flatMap(p => [p.actual]).filter(v => typeof v === 'number')],
    each survivor read as the number it is. *)
Definition allValues (data : list point) : list number :=
  map number_of (filter_numbers (flat_map (fun p => [actual p]) data)).

Definition yDomain (data : list point) : number * number :=
  if (length (allValues data) =? 0)%nat then (Fin 0, Fin 100)
  else
    let minValue := Math_min (allValues data) in
    let maxValue := Math_max (allValues data) in
    let range := num_sub maxValue minValue in
    let padding :=
      if num_gt range (Fin 0) then num_mul range (decimal (1 # 10)) else Fin 20 in
    (Math_floor (num_sub minValue padding), Math_ceil (num_add maxValue padding)).

(** [data.map(p => p.actual).filter(v => typeof v === 'number')] *)
Definition actualNumbers (data : list point) : list number :=
  map number_of (filter_numbers (map actual data)).

Definition minValue (data : list point) : number := Math_min (actualNumbers data).
Definition maxValue (data : list point) : number := Math_max (actualNumbers data).

(** [data.find(...)]: [None] is the [undefined] of an unsuccessful search. *)
Definition minPoint (data : list point) : option point :=
  List.find (fun p => strict_equals (actual p) (minValue data)) data.

Definition maxPoint (data : list point) : option point :=
  List.find (fun p => strict_equals (actual p) (maxValue data)) data.

(** [xs.filter(Boolean)] on an array of points and [undefined]s: a
    point is an object, hence truthy, and stays; [undefined] goes. *)
Fixpoint filter_Boolean (xs : list (option point)) : list point :=
  match xs with
  | [] => []
  | Some p :: r => p :: filter_Boolean r
  | None :: r => filter_Boolean r
  end.

Definition visibleMinMaxPoints (data : list point) : list point :=
  filter_Boolean [minPoint data; maxPoint data].

(** ** [parseInt(s, 10)] and [isNaN] *)

(** Strings are sequences of code units below 256.  The white space
    that [parseInt] skips in that range: TAB, LF, VT, FF, CR, SP, NBSP. *)
Definition is_white_space (c : ascii) : bool :=
  let n := nat_of_ascii c in
  existsb (Nat.eqb n) [9; 10; 11; 12; 13; 32; 160]%nat.

Fixpoint trim_start (s : string) : string :=
  match s with
  | String c r => if is_white_space c then trim_start r else s
  | EmptyString => s
  end.

Definition digit_value (c : ascii) : option Z :=
  let n := Z.of_nat (nat_of_ascii c) in
  if ((48 <=? n) && (n <=? 57))%Z then Some (n - 48)%Z else None.

(** The value of the longest prefix of decimal digits; [None] when
    that prefix is empty. *)
Fixpoint parse_digits (s : string) (acc : option Z) : option Z :=
  match s with
  | String c r =>
      match digit_value c with
      | Some d => parse_digits r (Some (10 * default 0%Z acc + d)%Z)
      | None => acc
      end
  | EmptyString => acc
  end.

(** Radix 10 is given, so no [0x] prefix is looked for.  The integer
    read is returned as the nearest double, an infinity beyond the
    range (the standard lets an engine replace the digits after the
    twentieth by zeros first; this is not done here). *)
Definition parseInt (s : string) : number :=
  let s1 := trim_start s in
  let '(sign, s2) :=
    match s1 with
    | String "-" r => ((-1)%Z, r)
    | String "+" r => (1%Z, r)
    | _ => (1%Z, s1)
    end in
  match parse_digits s2 None with
  | None => NaN
  | Some n => round64 (inject_Z (sign * n))
  end.

Definition isNaN (n : number) : bool :=
  match n with
  | NaN => true
  | _ => false
  end.

(** ** The threshold slots *)

(** The component state the threshold logic reads and writes: the
    selected parameter and the ten [useState] slots. *)
Record state : Type := {
  selectedParameter : string;
  metalTempThreshold : number;
  metalTempLowerThreshold : number;
  solidificationTimeThreshold : number;
  solidificationTimeLowerThreshold : number;
  tiltingAngleThreshold : number;
  tiltingAngleLowerThreshold : number;
  tiltingSpeedThreshold : number;
  tiltingSpeedLowerThreshold : number;
  topDieTempThreshold : number;
  topDieTempLowerThreshold : number
}.

(** The [useState] initial values. *)
Definition initial_state : state := {|
  selectedParameter := "metal_temperature";
  metalTempThreshold := Fin 730;
  metalTempLowerThreshold := Fin 710;
  solidificationTimeThreshold := Fin 180;
  solidificationTimeLowerThreshold := Fin 180;
  tiltingAngleThreshold := Fin 90;
  tiltingAngleLowerThreshold := Fin 90;
  tiltingSpeedThreshold := Fin 8;
  tiltingSpeedLowerThreshold := Fin 6;
  topDieTempThreshold := Fin 380;
  topDieTempLowerThreshold := Fin 300
|}.

(** How a call ends: with a value, or by throwing. *)
Inductive completion (A : Type) : Type :=
| Normal (a : A)
| Throw (e : string).
Arguments Normal {A} a.
Arguments Throw {A} e.

(** A handler or a render step: reads the state, may write it. *)
Definition M (A : Type) : Type := state -> completion (A * state).

Definition ret {A : Type} (a : A) : M A := fun st => Normal (a, st).

Definition bind {A B : Type} (m : M A) (k : A -> M B) : M B :=
  fun st =>
    match m st with
    | Normal (a, st') => k a st'
    | Throw e => Throw e
    end.

Notation "x <- m ;; k" := (bind m (fun x => k))
  (at level 100, m at next level, right associativity).

Definition read {A : Type} (f : state -> A) : M A := fun st => Normal (f st, st).
Definition write (f : state -> state) : M unit := fun st => Normal (tt, f st).

Definition setSelectedParameter (v : string) : M unit :=
  write (fun st => {|
    selectedParameter := v;
    metalTempThreshold := metalTempThreshold st;
    metalTempLowerThreshold := metalTempLowerThreshold st;
    solidificationTimeThreshold := solidificationTimeThreshold st;
    solidificationTimeLowerThreshold := solidificationTimeLowerThreshold st;
    tiltingAngleThreshold := tiltingAngleThreshold st;
    tiltingAngleLowerThreshold := tiltingAngleLowerThreshold st;
    tiltingSpeedThreshold := tiltingSpeedThreshold st;
    tiltingSpeedLowerThreshold := tiltingSpeedLowerThreshold st;
    topDieTempThreshold := topDieTempThreshold st;
    topDieTempLowerThreshold := topDieTempLowerThreshold st |}).

Definition setMetalTempThreshold (v : number) : M unit :=
  write (fun st => {|
    selectedParameter := selectedParameter st;
    metalTempThreshold := v;
    metalTempLowerThreshold := metalTempLowerThreshold st;
    solidificationTimeThreshold := solidificationTimeThreshold st;
    solidificationTimeLowerThreshold := solidificationTimeLowerThreshold st;
    tiltingAngleThreshold := tiltingAngleThreshold st;
    tiltingAngleLowerThreshold := tiltingAngleLowerThreshold st;
    tiltingSpeedThreshold := tiltingSpeedThreshold st;
    tiltingSpeedLowerThreshold := tiltingSpeedLowerThreshold st;
    topDieTempThreshold := topDieTempThreshold st;
    topDieTempLowerThreshold := topDieTempLowerThreshold st |}).

Definition setMetalTempLowerThreshold (v : number) : M unit :=
  write (fun st => {|
    selectedParameter := selectedParameter st;
    metalTempThreshold := metalTempThreshold st;
    metalTempLowerThreshold := v;
    solidificationTimeThreshold := solidificationTimeThreshold st;
    solidificationTimeLowerThreshold := solidificationTimeLowerThreshold st;
    tiltingAngleThreshold := tiltingAngleThreshold st;
    tiltingAngleLowerThreshold := tiltingAngleLowerThreshold st;
    tiltingSpeedThreshold := tiltingSpeedThreshold st;
    tiltingSpeedLowerThreshold := tiltingSpeedLowerThreshold st;
    topDieTempThreshold := topDieTempThreshold st;
    topDieTempLowerThreshold := topDieTempLowerThreshold st |}).

Definition setSolidificationTimeThreshold (v : number) : M unit :=
  write (fun st => {|
    selectedParameter := selectedParameter st;
    metalTempThreshold := metalTempThreshold st;
    metalTempLowerThreshold := metalTempLowerThreshold st;
    solidificationTimeThreshold := v;
    solidificationTimeLowerThreshold := solidificationTimeLowerThreshold st;
    tiltingAngleThreshold := tiltingAngleThreshold st;
    tiltingAngleLowerThreshold := tiltingAngleLowerThreshold st;
    tiltingSpeedThreshold := tiltingSpeedThreshold st;
    tiltingSpeedLowerThreshold := tiltingSpeedLowerThreshold st;
    topDieTempThreshold := topDieTempThreshold st;
    topDieTempLowerThreshold := topDieTempLowerThreshold st |}).

Definition setSolidificationTimeLowerThreshold (v : number) : M unit :=
  write (fun st => {|
    selectedParameter := selectedParameter st;
    metalTempThreshold := metalTempThreshold st;
    metalTempLowerThreshold := metalTempLowerThreshold st;
    solidificationTimeThreshold := solidificationTimeThreshold st;
    solidificationTimeLowerThreshold := v;
    tiltingAngleThreshold := tiltingAngleThreshold st;
    tiltingAngleLowerThreshold := tiltingAngleLowerThreshold st;
    tiltingSpeedThreshold := tiltingSpeedThreshold st;
    tiltingSpeedLowerThreshold := tiltingSpeedLowerThreshold st;
    topDieTempThreshold := topDieTempThreshold st;
    topDieTempLowerThreshold := topDieTempLowerThreshold st |}).

Definition setTiltingAngleThreshold (v : number) : M unit :=
  write (fun st => {|
    selectedParameter := selectedParameter st;
    metalTempThreshold := metalTempThreshold st;
    metalTempLowerThreshold := metalTempLowerThreshold st;
    solidificationTimeThreshold := solidificationTimeThreshold st;
    solidificationTimeLowerThreshold := solidificationTimeLowerThreshold st;
    tiltingAngleThreshold := v;
    tiltingAngleLowerThreshold := tiltingAngleLowerThreshold st;
    tiltingSpeedThreshold := tiltingSpeedThreshold st;
    tiltingSpeedLowerThreshold := tiltingSpeedLowerThreshold st;
    topDieTempThreshold := topDieTempThreshold st;
    topDieTempLowerThreshold := topDieTempLowerThreshold st |}).

Definition setTiltingAngleLowerThreshold (v : number) : M unit :=
  write (fun st => {|
    selectedParameter := selectedParameter st;
    metalTempThreshold := metalTempThreshold st;
    metalTempLowerThreshold := metalTempLowerThreshold st;
    solidificationTimeThreshold := solidificationTimeThreshold st;
    solidificationTimeLowerThreshold := solidificationTimeLowerThreshold st;
    tiltingAngleThreshold := tiltingAngleThreshold st;
    tiltingAngleLowerThreshold := v;
    tiltingSpeedThreshold := tiltingSpeedThreshold st;
    tiltingSpeedLowerThreshold := tiltingSpeedLowerThreshold st;
    topDieTempThreshold := topDieTempThreshold st;
    topDieTempLowerThreshold := topDieTempLowerThreshold st |}).

Definition setTiltingSpeedThreshold (v : number) : M unit :=
  write (fun st => {|
    selectedParameter := selectedParameter st;
    metalTempThreshold := metalTempThreshold st;
    metalTempLowerThreshold := metalTempLowerThreshold st;
    solidificationTimeThreshold := solidificationTimeThreshold st;
    solidificationTimeLowerThreshold := solidificationTimeLowerThreshold st;
    tiltingAngleThreshold := tiltingAngleThreshold st;
    tiltingAngleLowerThreshold := tiltingAngleLowerThreshold st;
    tiltingSpeedThreshold := v;
    tiltingSpeedLowerThreshold := tiltingSpeedLowerThreshold st;
    topDieTempThreshold := topDieTempThreshold st;
    topDieTempLowerThreshold := topDieTempLowerThreshold st |}).

Definition setTiltingSpeedLowerThreshold (v : number) : M unit :=
  write (fun st => {|
    selectedParameter := selectedParameter st;
    metalTempThreshold := metalTempThreshold st;
    metalTempLowerThreshold := metalTempLowerThreshold st;
    solidificationTimeThreshold := solidificationTimeThreshold st;
    solidificationTimeLowerThreshold := solidificationTimeLowerThreshold st;
    tiltingAngleThreshold := tiltingAngleThreshold st;
    tiltingAngleLowerThreshold := tiltingAngleLowerThreshold st;
    tiltingSpeedThreshold := tiltingSpeedThreshold st;
    tiltingSpeedLowerThreshold := v;
    topDieTempThreshold := topDieTempThreshold st;
    topDieTempLowerThreshold := topDieTempLowerThreshold st |}).

Definition setTopDieTempThreshold (v : number) : M unit :=
  write (fun st => {|
    selectedParameter := selectedParameter st;
    metalTempThreshold := metalTempThreshold st;
    metalTempLowerThreshold := metalTempLowerThreshold st;
    solidificationTimeThreshold := solidificationTimeThreshold st;
    solidificationTimeLowerThreshold := solidificationTimeLowerThreshold st;
    tiltingAngleThreshold := tiltingAngleThreshold st;
    tiltingAngleLowerThreshold := tiltingAngleLowerThreshold st;
    tiltingSpeedThreshold := tiltingSpeedThreshold st;
    tiltingSpeedLowerThreshold := tiltingSpeedLowerThreshold st;
    topDieTempThreshold := v;
    topDieTempLowerThreshold := topDieTempLowerThreshold st |}).

Definition setTopDieTempLowerThreshold (v : number) : M unit :=
  write (fun st => {|
    selectedParameter := selectedParameter st;
    metalTempThreshold := metalTempThreshold st;
    metalTempLowerThreshold := metalTempLowerThreshold st;
    solidificationTimeThreshold := solidificationTimeThreshold st;
    solidificationTimeLowerThreshold := solidificationTimeLowerThreshold st;
    tiltingAngleThreshold := tiltingAngleThreshold st;
    tiltingAngleLowerThreshold := tiltingAngleLowerThreshold st;
    tiltingSpeedThreshold := tiltingSpeedThreshold st;
    tiltingSpeedLowerThreshold := tiltingSpeedLowerThreshold st;
    topDieTempThreshold := topDieTempThreshold st;
    topDieTempLowerThreshold := v |}).

(** ** [getCurrentThreshold] and [updateThreshold] *)

(** The object [{ upper, lower }]; [None] is [undefined]. *)
Record thresholds : Type := {
  upper : option number;
  lower : option number
}.

Definition getCurrentThreshold : M thresholds :=
  p <- read selectedParameter ;;
  if String.eqb p "metal_temperature" then
    u <- read metalTempThreshold ;; l <- read metalTempLowerThreshold ;;
    ret {| upper := Some u; lower := Some l |}
  else if String.eqb p "solidification_time" then
    u <- read solidificationTimeThreshold ;; l <- read solidificationTimeLowerThreshold ;;
    ret {| upper := Some u; lower := Some l |}
  else if String.eqb p "tilting_angle" then
    u <- read tiltingAngleThreshold ;; l <- read tiltingAngleLowerThreshold ;;
    ret {| upper := Some u; lower := Some l |}
  else if String.eqb p "tilting_speed" then
    u <- read tiltingSpeedThreshold ;; l <- read tiltingSpeedLowerThreshold ;;
    ret {| upper := Some u; lower := Some l |}
  else if String.eqb p "top_die_temperature" then
    u <- read topDieTempThreshold ;; l <- read topDieTempLowerThreshold ;;
    ret {| upper := Some u; lower := Some l |}
  else
    ret {| upper := None; lower := None |}.

Definition updateThreshold (type value : string) : M unit :=
  let numValue := parseInt value in
  if isNaN numValue then ret tt
  else
    p <- read selectedParameter ;;
    if String.eqb p "metal_temperature" then
      if String.eqb type "upper" then setMetalTempThreshold numValue
      else setMetalTempLowerThreshold numValue
    else if String.eqb p "solidification_time" then
      if String.eqb type "upper" then setSolidificationTimeThreshold numValue
      else setSolidificationTimeLowerThreshold numValue
    else if String.eqb p "tilting_angle" then
      if String.eqb type "upper" then setTiltingAngleThreshold numValue
      else setTiltingAngleLowerThreshold numValue
    else if String.eqb p "tilting_speed" then
      if String.eqb type "upper" then setTiltingSpeedThreshold numValue
      else setTiltingSpeedLowerThreshold numValue
    else if String.eqb p "top_die_temperature" then
      if String.eqb type "upper" then setTopDieTempThreshold numValue
      else setTopDieTempLowerThreshold numValue
    else ret tt.

(** The [value] fields of the five entries of [parameters]. *)
Definition parameters : list string :=
  ["metal_temperature"; "solidification_time"; "tilting_angle";
   "tilting_speed"; "top_die_temperature"].

(** The store as the chart reads it: the pair shown once [parameter]
    is the selected one (the dropdown's [onChange], then a render). *)
Definition get (parameter : string) : M thresholds :=
  _ <- setSelectedParameter parameter ;; getCurrentThreshold.

(** The value a call ends with, the final state left out. *)
Definition result {A : Type} (c : completion (A * state)) : completion A :=
  match c with
  | Normal (a, _) => Normal a
  | Throw e => Throw e
  end.

(** ** Reference definitions *)

(** The defined numeric values of a series, in order. *)
Definition defined_value (p : point) : option Q :=
  match actual p with
  | VNum q => Some q
  | _ => None
  end.

Definition defined_values (points : list point) : list Q := omap defined_value points.

(** [m] is a least (greatest) element of [l]. *)
Definition is_min (m : Q) (l : list Q) : Prop := In m l /\ Forall (fun x => m <= x)%Q l.
Definition is_max (m : Q) (l : list Q) : Prop := In m l /\ Forall (fun x => x <= m)%Q l.

(** Minimum and maximum of the non-empty list [x :: l]. *)
Definition minimum (x : Q) (l : list Q) : Q := fold_right Qmin x l.
Definition maximum (x : Q) (l : list Q) : Q := fold_right Qmax x l.

Definition floorQ (x : Q) : number := Fin (inject_Z (Qfloor x)).
Definition ceilQ (x : Q) : number := Fin (inject_Z (Qceiling x)).

(** The domain as the design states it, in exact arithmetic: [0, 100]
    without defined values; otherwise 10% of the range as padding, 20
    for a range of zero, the lower bound rounded down and the upper
    one up. *)
Definition domain_reference (points : list point) : number * number :=
  match defined_values points with
  | [] => (Fin 0, Fin 100)
  | x :: l =>
      let minValue := minimum x l in
      let maxValue := maximum x l in
      let range := (maxValue - minValue)%Q in
      let padding := if Qltb 0 range then (range * (10 # 100))%Q else 20%Q in
      (floorQ (minValue - padding), ceilQ (maxValue + padding))
  end.

(** The value [round_pos] arrives at before the overflow test. *)
Definition vpos (q : Q) : Q :=
  (inject_Z (round_half_even (q * pow2 (- ulp_exponent q))) * pow2 (ulp_exponent q))%Q.

(** A number that is not NaN is below another one. *)
Definition num_le (a b : number) : Prop :=
  match a, b with
  | NaN, _ | _, NaN => False
  | NegInf, _ => True
  | _, PosInf => True
  | Fin x, Fin y => (x <= y)%Q
  | _, _ => False
  end.

(** A rational that is the exact value of a double. *)
Definition is_double (q : Q) : Prop := round64 q = Fin (Qred q).

(** What [yDomain] computes from the two extrema. *)
Definition padding_num (range : number) : number :=
  if num_gt range (Fin 0) then num_mul range (decimal (1 # 10)) else Fin 20.

Definition domain_num (minValue maxValue : number) : number * number :=
  let padding := padding_num (num_sub maxValue minValue) in
  (Math_floor (num_sub minValue padding), Math_ceil (num_add maxValue padding)).

(** The domain as the design states it, each operation being that of
    binary64: the range is the rounded difference of the extrema, the
    padding the rounded product of the range and the double nearest
    to one tenth, or 20 for a range of zero, and the difference and
    the sum are rounded before they are rounded down and up. *)
Definition domain_binary64 (points : list point) : number * number :=
  match defined_values points with
  | [] => (Fin 0, Fin 100)
  | x :: l =>
      let minValue := Fin (minimum x l) in
      let maxValue := Fin (maximum x l) in
      let range := num_sub maxValue minValue in
      let padding :=
        if num_gt range (Fin 0) then num_mul range (decimal (1 # 10)) else Fin 20 in
      (Math_floor (num_sub minValue padding), Math_ceil (num_add maxValue padding))
  end.

(** [p] is the first point of [points] whose value is the number [m]:
    it sits at some position, carries a number equal to [m], and no
    earlier point does. *)
Definition first_with_value (m : Q) (points : list point) (p : point) : Prop :=
  exists pre post q,
    points = pre ++ p :: post /\
    actual p = VNum q /\ (q == m)%Q /\
    Forall (fun p' => forall q', actual p' = VNum q' -> ~ (q' == m)%Q) pre.

(** A flat series: any two defined values are equal numbers. *)
Definition flat (points : list point) : Prop :=
  forall x y, In x (defined_values points) -> In y (defined_values points) -> (x == y)%Q.

(** [p] is the first point of [points] that carries a number. *)
Definition first_defined (points : list point) (p : point) : Prop :=
  exists pre post q,
    points = pre ++ p :: post /\
    actual p = VNum q /\
    Forall (fun p' => defined_value p' = None) pre.

(** A reading carries a number for a parameter; a projected point
    holds a number. *)
Definition carries_number (r : object) (parameter : string) : Prop :=
  exists q, r !! parameter = Some (VNum q).

Definition has_number (pt : point) : Prop := exists q, actual pt = VNum q.

(** The running choice behind [Math.min] and [Math.max] on finite
    arguments: [better x best] says that [x] replaces [best]. *)
Definition pick (better : Q -> Q -> bool) (a : Q) (l : list Q) : Q :=
  fold_left (fun best x => if better x best then x else best) l a.

(** ** Worked series *)

Definition reading (t : string) (v : value) (flag : value) : object :=
  <["time" := VStr t]> (<["metal_temperature" := v]> (<["is_violation" := flag]> ∅)).

Definition mk (t : string) (v : value) (flag : bool) : point :=
  {| time := VStr t; actual := v; is_violation := VBool flag |}.

Definition scenarioA : list point :=
  [mk "0" (VNum 705) true; mk "1" (VNum 715) false; mk "2" (VNum 725) false].

Definition scenarioB : list point :=
  [mk "0" VUndefined false; mk "1" VUndefined false].

Definition scenarioC : list point :=
  [mk "0" (VNum 50) false; mk "1" (VNum 50) false; mk "2" (VNum 50) false].

(** The readings 0.6 and 6.6, as the doubles these literals denote. *)
Definition series_06_66 : list point :=
  [mk "0" (VNum (5404319552844595 # 9007199254740992)) false;
   mk "1" (VNum (3715469692580659 # 562949953421312)) false].

(** The state once the dropdown lost every option and the selection
    fell back to the empty string. *)
Definition unselected_state : state := {|
  selectedParameter := "";
  metalTempThreshold := Fin 730;
  metalTempLowerThreshold := Fin 710;
  solidificationTimeThreshold := Fin 180;
  solidificationTimeLowerThreshold := Fin 180;
  tiltingAngleThreshold := Fin 90;
  tiltingAngleLowerThreshold := Fin 90;
  tiltingSpeedThreshold := Fin 8;
  tiltingSpeedLowerThreshold := Fin 6;
  topDieTempThreshold := Fin 380;
  topDieTempLowerThreshold := Fin 300
|}.

(** A reading whose violation flag is the number 1. *)
Definition reading_flag_one : object := reading "0" (VNum 705) (VNum 1).

(** ** Further parts of the component *)

(** [ViolationMarker]: the argument of [translate], which puts the
    centre of the 16 by 16 icon on the point. *)
Definition ViolationMarker (cx cy : number) : number * number :=
  (num_sub cx (Fin 8), num_sub cy (Fin 8)).

(** [ViolationShape]: the marker for a flagged point, [None] for the
    [null] returned otherwise. *)
Definition ViolationShape (payload : point) (cx cy : number) : option (number * number) :=
  if truthy (is_violation payload) then Some (ViolationMarker cx cy) else None.

(** [frontend/src/App.js]:
    [processedChartData.filter(d => d.is_violation)]. *)
Definition violationData (chartData : list object) (selectedParameter : string) : list object :=
  List.filter (fun d => truthy (prop d "is_violation"))
              (AppJs.processedChartData chartData selectedParameter).

(** ToBoolean on a number. *)
Definition num_truthy (n : number) : bool :=
  match n with
  | NaN => false
  | Fin q => negb (Qeq_bool q 0)
  | _ => true
  end.

(** [b && <ReferenceLine y={b} ... />]: the height of the line that
    is drawn, [None] when the bound is falsy and no line is. *)
Definition referenceLine (b : option number) : option number :=
  match b with
  | Some n => if num_truthy n then Some n else None
  | None => None
  end.

Definition upperLine (t : thresholds) : option number := referenceLine (upper t).
Definition lowerLine (t : thresholds) : option number := referenceLine (lower t).

(** [a === b] on two fields.  Objects are identical only when they
    are one object, which [VObject] does not record: an object
    equals nothing here. *)
Definition strict_equal (a b : value) : bool :=
  match a, b with
  | VUndefined, VUndefined => true
  | VNull, VNull => true
  | VBool x, VBool y => Bool.eqb x y
  | VNum x, VNum y => Qeq_bool x y
  | VStr x, VStr y => String.eqb x y
  | _, _ => false
  end.

(** The updater [dismissAlert] hands to [setAlerts]:
    [currentAlerts.filter(alert => alert.id !== alertId)]. *)
Definition dismissAlert (alertId : value) (currentAlerts : list object) : list object :=
  List.filter (fun alert => negb (strict_equal (prop alert "id") alertId)) currentAlerts.

(** [xs.includes(x)] on strings. *)
Definition includes (xs : list string) (x : string) : bool := existsb (String.eqb x) xs.

(** [xs[0] || '']: the first entry, the empty string when there is
    none or when it is empty itself. *)
Definition first_or_empty (xs : list string) : string :=
  match xs with
  | x :: _ => x
  | [] => ""
  end.

(** The machine selected once [fetchInitialData] has received the
    list [newMachines] ([machinesData.machines || []], names as
    strings); [selectedMachine] is the selection the callback saw,
    and [newMachines[0]] is read on a non-empty list only. *)
Definition fetchInitialData_selectedMachine (selectedMachine : string)
    (isAfterUpload : bool) (newMachines : list string) : string :=
  if (0 <? length newMachines)%nat then
    let currentMachineIsValid :=
      negb (String.eqb selectedMachine "") && includes newMachines selectedMachine in
    if isAfterUpload || negb currentMachineIsValid then List.hd "" newMachines
    else selectedMachine
  else "".

(** What the success branch of [fetchChartData] does to the selected
    parameter.  [requested] is the [selectedParameter] the callback
    captured when the request was made, which the test reads;
    [None] is a response without [feature_columns]. *)
Definition fetchChartData_selectedParameter (requested : string)
    (feature_columns : option (list string)) : M unit :=
  match feature_columns with
  | None => ret tt
  | Some columns =>
      if negb (includes columns requested) then setSelectedParameter (first_or_empty columns)
      else ret tt
  end.

(** The options of the parameter dropdown:
    [parameters.filter(p => availableFeatures.includes(p.value))]. *)
Definition parameterOptions (availableFeatures : list string) : list string :=
  List.filter (fun p => includes availableFeatures p) parameters.

(** ** Auxiliary notions for the properties *)

(** The states the two handlers of the threshold panel and the
    dropdown lead to from the initial one. *)
Inductive reachable : state -> Prop :=
| reach_initial : reachable initial_state
| reach_select (st st' : state) (p : string) :
    reachable st -> setSelectedParameter p st = Normal (tt, st') -> reachable st'
| reach_update (st st' : state) (type value : string) :
    reachable st -> updateThreshold type value st = Normal (tt, st') -> reachable st'.

(** No slot holds NaN. *)
Definition number_slots (st : state) : Prop :=
  isNaN (metalTempThreshold st) = false /\ isNaN (metalTempLowerThreshold st) = false /\
  isNaN (solidificationTimeThreshold st) = false /\
  isNaN (solidificationTimeLowerThreshold st) = false /\
  isNaN (tiltingAngleThreshold st) = false /\ isNaN (tiltingAngleLowerThreshold st) = false /\
  isNaN (tiltingSpeedThreshold st) = false /\ isNaN (tiltingSpeedLowerThreshold st) = false /\
  isNaN (topDieTempThreshold st) = false /\ isNaN (topDieTempLowerThreshold st) = false.

(** The numbers a sequence of readings holds for a parameter are
    doubles. *)
Definition double_readings (parameter : string) (readings : list object) : Prop :=
  Forall (fun r => forall q, r !! parameter = Some (VNum q) -> is_double q) readings.

(** The number a reading holds for a parameter, if it holds one. *)
Definition reading_number (parameter : string) (r : object) : option Q :=
  match prop r parameter with
  | VNum q => Some q
  | _ => None
  end.

(** Two alerts and a reading for the examples. *)
Definition alert (id : value) (machine : string) : object :=
  <["id" := id]> (<["machine" := VStr machine]> ∅).

(** Case analysis on the string tests of the two [switch] statements. *)
Ltac string_cases :=
  repeat match goal with
         | |- context [String.eqb ?a ?b] =>
             destruct (String.eqb_spec a b); cbn [result]
         end.

(** * Properties *)

(** ** Scenarios of the design, evaluated *)

Example scenarioA_domain : yDomain scenarioA = (Fin 703, Fin 727).
Proof. vm_compute. reflexivity. Qed.

Example scenarioB_domain : yDomain scenarioB = (Fin 0, Fin 100).
Proof. reflexivity. Qed.

Example scenarioC_domain : yDomain scenarioC = (Fin 30, Fin 70).
Proof. vm_compute. reflexivity. Qed.

Example scenarioA_extrema :
  visibleMinMaxPoints scenarioA = [mk "0" (VNum 705) true; mk "2" (VNum 725) false].
Proof. vm_compute. reflexivity. Qed.

Example scenarioB_extrema : visibleMinMaxPoints scenarioB = [].
Proof. reflexivity. Qed.

Example scenarioC_extrema :
  visibleMinMaxPoints scenarioC = [mk "0" (VNum 50) false; mk "0" (VNum 50) false].
Proof. vm_compute. reflexivity. Qed.

Example parseInt_abc : parseInt "abc" = NaN.
Proof. reflexivity. Qed.

Example parseInt_empty : parseInt "" = NaN.
Proof. reflexivity. Qed.

Example parseInt_720 : parseInt "  720.5" = Fin 720.
Proof. reflexivity. Qed.

Example parseInt_minus : parseInt "-12abc" = Fin (-12).
Proof. reflexivity. Qed.

(** An integer between two doubles, and one beyond the range. *)
Example parseInt_rounds : parseInt "9007199254740993" = Fin 9007199254740992.
Proof. vm_compute. reflexivity. Qed.

Example parseInt_overflows :
  parseInt "1000000000000000000000000000000000000000000000000000000000000000000000000000000000000000000000000000000000000000000000000000000000000000000000000000000000000000000000000000000000000000000000000000000000000000000000000000000000000000000000000000000000000000000000000000000000000000000000000000000000000000000000"
  = PosInf.
Proof. vm_compute. reflexivity. Qed.

(** ** The numbers of a series *)

Lemma flat_map_singleton {A B : Type} (f : A -> B) (l : list A) :
  flat_map (fun x => [f x]) l = map f l.
Proof. induction l as [|a l IH]; simpl; [reflexivity | now rewrite IH]. Qed.

Lemma numbers_defined_values (data : list point) :
  map number_of (filter_numbers (map actual data)) = map Fin (defined_values data).
Proof.
  induction data as [|p data IH]; [reflexivity |].
  unfold defined_values in *. cbn [map omap list_omap].
  unfold filter_numbers in *. cbn [List.filter].
  unfold defined_value at 1.
  destruct (actual p); cbn; rewrite ?IH; reflexivity.
Qed.

Lemma allValues_defined (data : list point) :
  allValues data = map Fin (defined_values data).
Proof. unfold allValues. rewrite flat_map_singleton. apply numbers_defined_values. Qed.

Lemma actualNumbers_defined (data : list point) :
  actualNumbers data = map Fin (defined_values data).
Proof. apply numbers_defined_values. Qed.

(** ** [Math.min] and [Math.max] on finite arguments *)

Lemma Qltb_true (x y : Q) : Qltb x y = true -> (x < y)%Q.
Proof. unfold Qltb. destruct (Qlt_le_dec x y); [trivial | discriminate]. Qed.

Lemma Qltb_false (x y : Q) : Qltb x y = false -> (y <= x)%Q.
Proof. unfold Qltb. destruct (Qlt_le_dec x y); [discriminate | trivial]. Qed.

Lemma Qltb_comp (x x' y y' : Q) : (x == x')%Q -> (y == y')%Q -> Qltb x y = Qltb x' y'.
Proof.
  intros Hx Hy. unfold Qltb.
  destruct (Qlt_le_dec x y) as [H | H], (Qlt_le_dec x' y') as [H' | H']; try reflexivity.
  - rewrite Hx, Hy in H. exfalso. exact (Qlt_not_le _ _ H H').
  - rewrite Hx, Hy in H. exfalso. exact (Qlt_not_le _ _ H' H).
Qed.

Lemma fold_min_step_Fin (l : list Q) (a : Q) :
  fold_left min_step (map Fin l) (Fin a) = Fin (pick Qltb a l).
Proof.
  revert a. induction l as [|x l IH]; intros a; [reflexivity |].
  cbn [map fold_left pick]. unfold min_step at 2. cbn [num_lt].
  destruct (Qltb x a); apply IH.
Qed.

Lemma fold_max_step_Fin (l : list Q) (a : Q) :
  fold_left max_step (map Fin l) (Fin a) = Fin (pick (fun x best => Qltb best x) a l).
Proof.
  revert a. induction l as [|x l IH]; intros a; [reflexivity |].
  cbn [map fold_left pick]. unfold max_step at 2, num_gt. cbn [num_lt].
  destruct (Qltb a x); apply IH.
Qed.

Lemma Math_min_Fin (x : Q) (l : list Q) :
  Math_min (map Fin (x :: l)) = Fin (pick Qltb x l).
Proof. unfold Math_min. cbn [map fold_left]. apply fold_min_step_Fin. Qed.

Lemma Math_max_Fin (x : Q) (l : list Q) :
  Math_max (map Fin (x :: l)) = Fin (pick (fun x best => Qltb best x) x l).
Proof. unfold Math_max. cbn [map fold_left]. apply fold_max_step_Fin. Qed.

(** The running choice ends on an extremum, for any order it follows. *)
Section Extremum.

Variable better : Q -> Q -> bool.
Variable le : Q -> Q -> Prop.
Hypothesis le_refl : forall x, le x x.
Hypothesis le_trans : forall x y z, le x y -> le y z -> le x z.
Hypothesis better_true : forall x y, better x y = true -> le x y.
Hypothesis better_false : forall x y, better x y = false -> le y x.

Lemma pick_In (a : Q) (l : list Q) : In (pick better a l) (a :: l).
Proof.
  revert a. induction l as [|x l IH]; intros a; [left; reflexivity |].
  cbn [pick fold_left].
  destruct (IH (if better x a then x else a)) as [H | H].
  - fold (pick better (if better x a then x else a) l). rewrite <- H.
    destruct (better x a); [right; left | left]; reflexivity.
  - right. right. exact H.
Qed.

Lemma pick_le_start (a : Q) (l : list Q) : le (pick better a l) a.
Proof.
  revert a. induction l as [|x l IH]; intros a; [apply le_refl |].
  cbn [pick fold_left]. fold (pick better (if better x a then x else a) l).
  destruct (better x a) eqn:E.
  - eapply le_trans; [apply IH | apply better_true, E].
  - apply IH.
Qed.

Lemma pick_le_all (a : Q) (l : list Q) : Forall (le (pick better a l)) (a :: l).
Proof.
  revert a. induction l as [|x l IH]; intros a.
  - constructor; [apply le_refl | constructor].
  - constructor; [apply pick_le_start |].
    cbn [pick fold_left]. fold (pick better (if better x a then x else a) l).
    specialize (IH (if better x a then x else a)).
    inversion IH as [|? ? Hhd Htl]; subst.
    constructor; [| exact Htl].
    destruct (better x a) eqn:E; [exact Hhd |].
    eapply le_trans; [exact Hhd | apply better_false, E].
Qed.

End Extremum.

Lemma pick_is_min (a : Q) (l : list Q) : is_min (pick Qltb a l) (a :: l).
Proof.
  split; [apply pick_In |].
  apply (pick_le_all Qltb Qle).
  - apply Qle_refl.
  - apply Qle_trans.
  - intros x y H. apply Qlt_le_weak, Qltb_true, H.
  - intros x y H. apply Qltb_false, H.
Qed.

Lemma pick_is_max (a : Q) (l : list Q) :
  is_max (pick (fun x best => Qltb best x) a l) (a :: l).
Proof.
  split; [apply pick_In |].
  apply (pick_le_all (fun x best => Qltb best x) (fun m x => x <= m)%Q).
  - apply Qle_refl.
  - intros x y z H1 H2. exact (Qle_trans _ _ _ H2 H1).
  - intros x y H. apply Qlt_le_weak, Qltb_true, H.
  - intros x y H. apply Qltb_false, H.
Qed.

(** ** Minimum and maximum of the reference *)

Lemma Qmin_cases (x y : Q) :
  (Qmin x y = x /\ (x <= y)%Q) \/ (Qmin x y = y /\ (y <= x)%Q).
Proof.
  unfold Qmin, GenericMinMax.gmin.
  destruct (x ?= y)%Q eqn:E.
  - left. split; [reflexivity |]. apply Qeq_alt in E. rewrite E. apply Qle_refl.
  - left. split; [reflexivity |]. apply Qlt_le_weak, Qlt_alt, E.
  - right. split; [reflexivity |]. apply Qlt_le_weak, Qgt_alt, E.
Qed.

Lemma Qmax_cases (x y : Q) :
  (Qmax x y = x /\ (y <= x)%Q) \/ (Qmax x y = y /\ (x <= y)%Q).
Proof.
  unfold Qmax, GenericMinMax.gmax.
  destruct (x ?= y)%Q eqn:E.
  - left. split; [reflexivity |]. apply Qeq_alt in E. rewrite E. apply Qle_refl.
  - right. split; [reflexivity |]. apply Qlt_le_weak, Qlt_alt, E.
  - left. split; [reflexivity |]. apply Qlt_le_weak, Qgt_alt, E.
Qed.

Lemma minimum_is_min (x : Q) (l : list Q) : is_min (minimum x l) (l ++ [x]).
Proof.
  unfold minimum. induction l as [|y l [IHin IHle]]; cbn [fold_right app].
  - split; [left; reflexivity | constructor; [apply Qle_refl | constructor]].
  - destruct (Qmin_cases y (fold_right Qmin x l)) as [[-> H] | [-> H]].
    + split; [left; reflexivity |].
      constructor; [apply Qle_refl |].
      eapply List.Forall_impl; [| exact IHle].
      intros z Hz. exact (Qle_trans _ _ _ H Hz).
    + split; [right; exact IHin |].
      constructor; [exact H | exact IHle].
Qed.

Lemma maximum_is_max (x : Q) (l : list Q) : is_max (maximum x l) (l ++ [x]).
Proof.
  unfold maximum. induction l as [|y l [IHin IHle]]; cbn [fold_right app].
  - split; [left; reflexivity | constructor; [apply Qle_refl | constructor]].
  - destruct (Qmax_cases y (fold_right Qmax x l)) as [[-> H] | [-> H]].
    + split; [left; reflexivity |].
      constructor; [apply Qle_refl |].
      eapply List.Forall_impl; [| exact IHle].
      intros z Hz. exact (Qle_trans _ _ _ Hz H).
    + split; [right; exact IHin |].
      constructor; [exact H | exact IHle].
Qed.

Lemma is_min_perm (m : Q) (l l' : list Q) :
  (forall x, In x l <-> In x l') -> is_min m l -> is_min m l'.
Proof.
  intros H [Hin Hle]. split; [apply H, Hin |].
  apply List.Forall_forall. intros x Hx. rewrite List.Forall_forall in Hle.
  apply Hle, H, Hx.
Qed.

Lemma is_max_perm (m : Q) (l l' : list Q) :
  (forall x, In x l <-> In x l') -> is_max m l -> is_max m l'.
Proof.
  intros H [Hin Hle]. split; [apply H, Hin |].
  apply List.Forall_forall. intros x Hx. rewrite List.Forall_forall in Hle.
  apply Hle, H, Hx.
Qed.

Lemma In_snoc (x a : Q) (l : list Q) : In x (l ++ [a]) <-> In x (a :: l).
Proof.
  rewrite List.in_app_iff. cbn [In]. tauto.
Qed.

Lemma minimum_is_min_cons (x : Q) (l : list Q) : is_min (minimum x l) (x :: l).
Proof.
  apply (is_min_perm _ (l ++ [x])); [intros z; apply In_snoc | apply minimum_is_min].
Qed.

Lemma maximum_is_max_cons (x : Q) (l : list Q) : is_max (maximum x l) (x :: l).
Proof.
  apply (is_max_perm _ (l ++ [x])); [intros z; apply In_snoc | apply maximum_is_max].
Qed.

Lemma is_min_unique (m m' : Q) (l : list Q) : is_min m l -> is_min m' l -> (m == m')%Q.
Proof.
  intros [Hin Hle] [Hin' Hle']. rewrite List.Forall_forall in Hle, Hle'.
  apply Qle_antisym; [apply Hle, Hin' | apply Hle', Hin].
Qed.

Lemma is_max_unique (m m' : Q) (l : list Q) : is_max m l -> is_max m' l -> (m == m')%Q.
Proof.
  intros [Hin Hle] [Hin' Hle']. rewrite List.Forall_forall in Hle, Hle'.
  apply Qle_antisym; [apply Hle', Hin | apply Hle, Hin'].
Qed.

(** ** Rounding to binary64 *)

Lemma pow2_pos (e : Z) : (0 < pow2 e)%Q.
Proof. apply Qpower_0_lt. reflexivity. Qed.

Lemma pow2_plus (a b : Z) : (pow2 (a + b) == pow2 a * pow2 b)%Q.
Proof. apply Qpower_plus. discriminate. Qed.

Lemma pow2_le (a b : Z) : (a <= b)%Z -> (pow2 a <= pow2 b)%Q.
Proof. intros H. apply Qpower_le_compat_l; [exact H | discriminate]. Qed.

Lemma pow2_lt_inv (a b : Z) : (pow2 a < pow2 b)%Q -> (a < b)%Z.
Proof. intros H. apply (Qpower_lt_compat_l_inv 2); [exact H | reflexivity]. Qed.

Lemma pow2_Z (k : Z) : (0 <= k)%Z -> (pow2 k == inject_Z (2 ^ k))%Q.
Proof. intros H. symmetry. apply (Zpower_Qpower 2 k H). Qed.

Lemma pow2_cancel (a : Z) : (pow2 a * pow2 (- a) == 1)%Q.
Proof. rewrite <- pow2_plus. replace (a + - a)%Z with 0%Z by lia. reflexivity. Qed.

Lemma Q_num_den (q : Q) : (q * inject_Z (Z.pos (Qden q)) == inject_Z (Qnum q))%Q.
Proof.
  destruct q as [n d]. unfold Qeq. cbn.
  rewrite ?Pos.mul_1_r, ?Z.mul_1_r. reflexivity.
Qed.

Lemma ilog2_spec (q : Q) :
  (0 < q)%Q -> (pow2 (ilog2 q) <= q)%Q /\ (q < pow2 (ilog2 q + 1))%Q.
Proof.
  intros Hq.
  assert (Hn : (0 < Qnum q)%Z) by (destruct q as [n d]; unfold Qlt in Hq; simpl in *; lia).
  pose proof (Z.log2_spec _ Hn) as [Hn1 Hn2].
  pose proof (Z.log2_spec (Z.pos (Qden q)) (Pos2Z.pos_is_pos _)) as [Hd1 Hd2].
  pose proof (Z.log2_nonneg (Qnum q)) as Ha.
  pose proof (Z.log2_nonneg (Z.pos (Qden q))) as Hb.
  set (a := Z.log2 (Qnum q)) in *. set (b := Z.log2 (Z.pos (Qden q))) in *.
  rewrite Zle_Qle in Hn1, Hd1. rewrite Zlt_Qlt in Hn2, Hd2.
  rewrite <- pow2_Z in Hn1, Hd1 by lia. rewrite <- pow2_Z in Hn2, Hd2 by lia.
  pose proof (Q_num_den q) as HqD.
  set (N := inject_Z (Qnum q)) in *. set (D := inject_Z (Z.pos (Qden q))) in *.
  assert (HD : (0 < D)%Q) by (unfold D; rewrite <- (Zlt_Qlt 0); lia).
  assert (Hup : (q < pow2 (a - b + 1))%Q).
  { apply (Qmult_lt_r _ _ D HD). rewrite HqD.
    apply Qlt_le_trans with (pow2 (Z.succ a)); [exact Hn2 |].
    replace (Z.succ a) with ((a - b + 1) + b)%Z by lia. rewrite pow2_plus.
    apply Qmult_le_l; [apply pow2_pos | exact Hd1]. }
  assert (Hlow : (pow2 (a - b - 1) < q)%Q).
  { apply (Qmult_lt_r _ _ D HD). rewrite HqD.
    apply Qlt_le_trans with (pow2 a); [| exact Hn1].
    replace a with ((a - b - 1) + Z.succ b)%Z at 2 by lia. rewrite pow2_plus.
    apply Qmult_lt_l; [apply pow2_pos | exact Hd2]. }
  unfold ilog2. fold a b.
  destruct (Qle_bool (pow2 (a - b)) q) eqn:E.
  - split; [apply Qle_bool_iff, E | exact Hup].
  - split; [apply Qlt_le_weak, Hlow |].
    replace (a - b - 1 + 1)%Z with (a - b)%Z by lia.
    apply Qnot_le_lt. intros H. apply Qle_bool_iff in H. congruence.
Qed.

Lemma ilog2_mono (x y : Q) : (0 < x)%Q -> (x <= y)%Q -> (ilog2 x <= ilog2 y)%Z.
Proof.
  intros Hx Hxy.
  assert (Hy : (0 < y)%Q) by lra.
  destruct (ilog2_spec x Hx) as [Hx1 _]. destruct (ilog2_spec y Hy) as [_ Hy2].
  assert (H : (pow2 (ilog2 x) < pow2 (ilog2 y + 1))%Q) by lra.
  apply pow2_lt_inv in H. lia.
Qed.

Lemma round_half_even_bounds (m : Q) :
  (Qfloor m <= round_half_even m <= Qfloor m + 1)%Z.
Proof.
  unfold round_half_even.
  destruct (m - inject_Z (Qfloor m) ?= 1 # 2)%Q; [destruct (Z.even (Qfloor m)) | |]; lia.
Qed.

Lemma round_half_even_Z (k : Z) : round_half_even (inject_Z k) = k.
Proof.
  unfold round_half_even. rewrite Qfloor_Z.
  destruct (Qcompare_spec (inject_Z k - inject_Z k) (1 # 2)) as [H | H | H];
    [exfalso; lra | reflexivity | exfalso; lra].
Qed.

Lemma round_half_even_mono (x y : Q) :
  (x <= y)%Q -> (round_half_even x <= round_half_even y)%Z.
Proof.
  intros Hxy. pose proof (Qfloor_resp_le _ _ Hxy) as Hf.
  destruct (Z.eq_dec (Qfloor x) (Qfloor y)) as [E | E].
  - unfold round_half_even. rewrite <- E.
    destruct (Qcompare_spec (x - inject_Z (Qfloor x)) (1 # 2)) as [Hx | Hx | Hx],
             (Qcompare_spec (y - inject_Z (Qfloor x)) (1 # 2)) as [Hy | Hy | Hy];
      try (destruct (Z.even (Qfloor x))); try lia; exfalso; lra.
  - pose proof (round_half_even_bounds x). pose proof (round_half_even_bounds y). lia.
Qed.

Lemma round_pos_vpos (q : Q) :
  round_pos q = if Qle_bool (pow2 1024) (vpos q) then PosInf else Fin (Qred (vpos q)).
Proof. reflexivity. Qed.

Lemma ulp_exponent_mono (x y : Q) :
  (0 < x)%Q -> (x <= y)%Q -> (ulp_exponent x <= ulp_exponent y)%Z.
Proof.
  intros Hx Hxy. pose proof (ilog2_mono x y Hx Hxy). unfold ulp_exponent. lia.
Qed.

Lemma scaled_le (x y : Q) (e : Z) : (x <= y)%Q -> (x * pow2 e <= y * pow2 e)%Q.
Proof. intros H. apply Qmult_le_compat_r; [exact H | apply Qlt_le_weak, pow2_pos]. Qed.

Lemma vpos_nonneg (q : Q) : (0 < q)%Q -> (0 <= vpos q)%Q.
Proof.
  intros Hq. unfold vpos.
  assert (H : (0 <= q * pow2 (- ulp_exponent q))%Q).
  { apply Qmult_le_0_compat; [lra | apply Qlt_le_weak, pow2_pos]. }
  apply Qfloor_resp_le in H. change (Qfloor 0) with 0%Z in H.
  pose proof (round_half_even_bounds (q * pow2 (- ulp_exponent q))) as Hb.
  apply Qmult_le_0_compat; [| apply Qlt_le_weak, pow2_pos].
  rewrite <- (Zle_Qle 0). lia.
Qed.

Lemma vpos_mono (x y : Q) : (0 < x)%Q -> (x <= y)%Q -> (vpos x <= vpos y)%Q.
Proof.
  intros Hx Hxy. assert (Hy : (0 < y)%Q) by lra.
  pose proof (ulp_exponent_mono x y Hx Hxy) as He.
  unfold vpos.
  set (ex := ulp_exponent x) in *. set (ey := ulp_exponent y) in *.
  destruct (Z.eq_dec ex ey) as [E | E].
  - rewrite <- E. apply scaled_le. rewrite <- Zle_Qle.
    apply round_half_even_mono, scaled_le, Hxy.
  - assert (Hlt : (ex < ey)%Z) by lia.
    apply Qle_trans with (pow2 (ey + 52)).
    + (* the rounded [x] stays below the next binade *)
      destruct (ilog2_spec x Hx) as [_ Hx2].
      assert (Hxe : (x <= pow2 (ey + 52))%Q).
      { apply Qlt_le_weak. apply Qlt_le_trans with (pow2 (ilog2 x + 1)); [exact Hx2 |].
        apply pow2_le. unfold ex, ulp_exponent in Hlt. lia. }
      apply (scaled_le _ _ (- ex)) in Hxe.
      rewrite <- pow2_plus in Hxe.
      rewrite (pow2_Z (ey + 52 + - ex)) in Hxe by lia.
      apply round_half_even_mono in Hxe. rewrite round_half_even_Z in Hxe.
      rewrite Zle_Qle in Hxe. apply (scaled_le _ _ ex) in Hxe.
      eapply Qle_trans; [exact Hxe |].
      rewrite <- (pow2_Z (ey + 52 + - ex)) by lia. rewrite <- pow2_plus.
      apply pow2_le. lia.
    + (* the rounded [y] stays in its binade *)
      destruct (ilog2_spec y Hy) as [Hy1 _].
      assert (Hey : ey = (ilog2 y - 52)%Z).
      { unfold ey, ulp_exponent in *. unfold ex, ulp_exponent in Hlt. lia. }
      assert (Hye : (pow2 (ey + 52) <= y)%Q).
      { eapply Qle_trans; [| exact Hy1]. apply pow2_le. lia. }
      apply (scaled_le _ _ (- ey)) in Hye.
      rewrite <- pow2_plus in Hye.
      replace (ey + 52 + - ey)%Z with 52%Z in Hye by lia.
      rewrite (pow2_Z 52) in Hye by lia.
      apply round_half_even_mono in Hye. rewrite round_half_even_Z in Hye.
      rewrite Zle_Qle in Hye. apply (scaled_le _ _ ey) in Hye.
      eapply Qle_trans; [| exact Hye].
      rewrite <- (pow2_Z 52) by lia. rewrite <- pow2_plus.
      apply pow2_le. lia.
Qed.

Lemma num_le_trans (a b c : number) : num_le a b -> num_le b c -> num_le a c.
Proof.
  destruct a, b, c; cbn; try tauto. apply Qle_trans.
Qed.

Lemma num_le_neg (a b : number) : num_le a b -> num_le (num_neg b) (num_neg a).
Proof.
  destruct a, b; cbn; try tauto. intros H. lra.
Qed.

Lemma round_pos_mono (x y : Q) :
  (0 < x)%Q -> (x <= y)%Q -> num_le (round_pos x) (round_pos y).
Proof.
  intros Hx Hxy. pose proof (vpos_mono x y Hx Hxy) as Hv.
  rewrite !round_pos_vpos.
  destruct (Qle_bool (pow2 1024) (vpos x)) eqn:Ex,
           (Qle_bool (pow2 1024) (vpos y)) eqn:Ey; unfold num_le; try exact I.
  - apply Qle_bool_iff in Ex.
    assert (H : (pow2 1024 <= vpos y)%Q) by lra.
    apply Qle_bool_iff in H. congruence.
  - now rewrite !Qred_correct.
Qed.

Lemma round_pos_nonneg (q : Q) : (0 < q)%Q -> num_le (Fin 0) (round_pos q).
Proof.
  intros Hq. rewrite round_pos_vpos.
  destruct (Qle_bool (pow2 1024) (vpos q)); unfold num_le; [exact I |].
  rewrite Qred_correct. apply vpos_nonneg, Hq.
Qed.

Lemma round64_comp (x y : Q) : (x == y)%Q -> round64 x = round64 y.
Proof. intros H. unfold round64. now rewrite (Qred_complete _ _ H). Qed.

Lemma round64_mono (x y : Q) : (x <= y)%Q -> num_le (round64 x) (round64 y).
Proof.
  intros Hxy. unfold round64.
  rewrite <- (Qred_correct x), <- (Qred_correct y) in Hxy.
  set (qx := Qred x) in *. set (qy := Qred y) in *.
  destruct (Qcompare_spec qx 0) as [Hx | Hx | Hx],
           (Qcompare_spec qy 0) as [Hy | Hy | Hy];
    try (exfalso; lra).
  - unfold num_le. lra.
  - apply round_pos_nonneg, Hy.
  - change (Fin 0) with (num_neg (Fin 0)). apply num_le_neg, round_pos_nonneg. lra.
  - apply num_le_neg, round_pos_mono; lra.
  - apply num_le_trans with (Fin 0).
    + change (Fin 0) with (num_neg (Fin 0)). apply num_le_neg, round_pos_nonneg. lra.
    + apply round_pos_nonneg, Hy.
  - apply round_pos_mono; assumption.
Qed.

Lemma round64_not_NaN (q : Q) : round64 q <> NaN.
Proof.
  unfold round64. destruct (Qred q ?= 0)%Q; try discriminate;
    rewrite round_pos_vpos; destruct (Qle_bool _ _); discriminate.
Qed.

Lemma round64_zero : round64 0 = Fin 0.
Proof. reflexivity. Qed.

Lemma decimal_tenth : decimal (1 # 10) = Fin (3602879701896397 # 36028797018963968).
Proof. vm_compute. reflexivity. Qed.

(** Rounding at work: one tenth plus two tenths, two ties, the
    largest double, overflow, the smallest subnormal and two ties
    below and above it. *)
Example round64_samples :
  num_add (decimal (1 # 10)) (decimal (2 # 10)) = Fin (1351079888211149 # 4503599627370496) /\
  round64 (inject_Z (2 ^ 53 + 1)) = Fin (inject_Z (2 ^ 53)) /\
  round64 (inject_Z (2 ^ 53 + 3)) = Fin (inject_Z (2 ^ 53 + 4)) /\
  round64 (inject_Z (2 ^ 1024 - 2 ^ 970 - 1)) = Fin (inject_Z (2 ^ 1024 - 2 ^ 971)) /\
  round64 (inject_Z (2 ^ 1024 - 2 ^ 970)) = PosInf /\
  round64 (1 # 2 ^ 1074) = Fin (1 # 2 ^ 1074) /\
  round64 (1 # 2 ^ 1075) = Fin 0 /\
  round64 (- (3 # 2 ^ 1075)) = Fin (- (1 # 2 ^ 1073)).
Proof. vm_compute. repeat split; reflexivity. Qed.

#[local] Set Warnings "-inexact-float".

(** The operations agree with the kernel's binary64 floats on the
    numbers of the examples: literals, the three operations of
    [yDomain] on 0.6 and 6.6, a subnormal product and an overflow. *)
Example round64_agrees_with_floats :
  decimal (1 # 10) = number_of_float 0.1 /\
  decimal (6 # 10) = number_of_float 0.6 /\
  decimal (66 # 10) = number_of_float 6.6 /\
  num_sub (decimal (66 # 10)) (decimal (6 # 10)) = number_of_float (6.6 - 0.6) /\
  num_mul (Fin 6) (decimal (1 # 10)) = number_of_float (6 * 0.1) /\
  num_sub (decimal (6 # 10)) (num_mul (Fin 6) (decimal (1 # 10)))
  = number_of_float (0.6 - 6 * 0.1) /\
  num_add (decimal (66 # 10)) (num_mul (Fin 6) (decimal (1 # 10)))
  = number_of_float (6.6 + 6 * 0.1) /\
  num_add (decimal (1 # 10)) (decimal (2 # 10)) = number_of_float (0.1 + 0.2) /\
  num_mul (decimal (1 # 10 ^ 320)) (decimal (1 # 10)) = number_of_float (1e-320 * 0.1) /\
  num_sub (decimal (inject_Z (10 ^ 308))) (decimal (- inject_Z (10 ^ 308)))
  = number_of_float (1e308 - (-1e308)) /\
  num_sub (Fin (inject_Z (10 ^ 19))) (Fin 20) = number_of_float (1e19 - 20).
Proof. vm_compute. repeat split; reflexivity. Qed.

(** Doubles and rationals that are none: a fraction need not be in
    lowest terms, and one tenth and [2^53 + 1] lie between doubles. *)
Example is_double_samples :
  is_double 0 /\ is_double (-705) /\
  is_double (5404319552844595 # 9007199254740992) /\
  is_double (- (10808639105689190 # 18014398509481984)) /\
  is_double (- (1 # 2 ^ 1074)) /\
  is_double (double_of (- inject_Z (10 ^ 308))) /\
  ~ is_double (1 # 10) /\ ~ is_double (inject_Z (2 ^ 53 + 1)).
Proof. unfold is_double. vm_compute. repeat split; try reflexivity; discriminate. Qed.

(** Two series at the edge of the range: equal readings of 1e19,
    where 20 is absorbed and both bounds are the reading; readings of
    1e308 and -1e308, whose range overflows. *)
Example yDomain_large :
  yDomain [mk "0" (VNum (inject_Z (10 ^ 19))) false; mk "1" (VNum (inject_Z (10 ^ 19))) false]
  = (Fin (inject_Z (10 ^ 19)), Fin (inject_Z (10 ^ 19))) /\
  yDomain [mk "0" (VNum (double_of (inject_Z (10 ^ 308)))) false;
           mk "1" (VNum (double_of (- inject_Z (10 ^ 308)))) false]
  = (NegInf, PosInf).
Proof. vm_compute. split; reflexivity. Qed.

(** ** The axis domain *)

Lemma num_add_comp (x x' : Q) (n : number) :
  (x == x')%Q -> num_add (Fin x) n = num_add (Fin x') n.
Proof.
  intros H. destruct n; try reflexivity.
  cbn [num_add]. apply round64_comp. now rewrite H.
Qed.

Lemma num_sub_comp (x x' : Q) (n : number) :
  (x == x')%Q -> num_sub (Fin x) n = num_sub (Fin x') n.
Proof. intros H. unfold num_sub. now apply num_add_comp. Qed.

Lemma domain_num_comp (mn mn' mx mx' : Q) :
  (mn == mn')%Q -> (mx == mx')%Q ->
  domain_num (Fin mn) (Fin mx) = domain_num (Fin mn') (Fin mx').
Proof.
  intros Hn Hx. unfold domain_num.
  assert (Hr : num_sub (Fin mx) (Fin mn) = num_sub (Fin mx') (Fin mn')).
  { unfold num_sub. cbn [num_neg num_add]. apply round64_comp. now rewrite Hn, Hx. }
  rewrite Hr.
  rewrite (num_sub_comp mn mn' _ Hn), (num_add_comp mx mx' _ Hx). reflexivity.
Qed.

(** What [yDomain] computes once the series has a defined value, in
    terms of the extrema [Math.min] and [Math.max] arrive at. *)
Lemma yDomain_defined (data : list point) (x : Q) (l : list Q) :
  defined_values data = x :: l ->
  yDomain data
  = domain_num (Fin (pick Qltb x l)) (Fin (pick (fun x best => Qltb best x) x l)).
Proof.
  intros Hd. unfold yDomain.
  rewrite allValues_defined, Hd, Math_min_Fin, Math_max_Fin. reflexivity.
Qed.

Lemma In_nonempty {A : Type} (m : A) (l : list A) : In m l -> exists x r, l = x :: r.
Proof. intros Hin. destruct l as [|x r]; [destruct Hin | eauto]. Qed.

(** [yDomain] for a series whose least and greatest defined values
    are known. *)
Lemma yDomain_by_extrema (data : list point) (mn mx : Q) :
  is_min mn (defined_values data) ->
  is_max mx (defined_values data) ->
  yDomain data = domain_num (Fin mn) (Fin mx).
Proof.
  intros Hmin Hmax.
  destruct (In_nonempty _ _ (proj1 Hmin)) as (x & l & Hd).
  rewrite (yDomain_defined data x l Hd).
  rewrite Hd in Hmin, Hmax.
  apply domain_num_comp.
  - exact (is_min_unique _ _ _ (pick_is_min x l) Hmin).
  - exact (is_max_unique _ _ _ (pick_is_max x l) Hmax).
Qed.

(** C1, as the code has it. For every series, [yDomain] is the domain
    of the reference definition computed in binary64: [0, 100] when
    no value is defined; otherwise the rounded difference of the
    minimum and the padding, rounded down, and the rounded sum of the
    maximum and the padding, rounded up, the padding being the
    rounded product of the rounded range and the double nearest to
    one tenth, or 20 when the range is zero. *)
Theorem yDomain_is_binary64 (data : list point) :
  yDomain data = domain_binary64 data.
Proof.
  unfold domain_binary64.
  destruct (defined_values data) as [|x l] eqn:Hd.
  - unfold yDomain. rewrite allValues_defined, Hd. reflexivity.
  - rewrite (yDomain_by_extrema data (minimum x l) (maximum x l)).
    + reflexivity.
    + rewrite Hd. apply minimum_is_min_cons.
    + rewrite Hd. apply maximum_is_max_cons.
Qed.

(** C1, as stated, fails on the readings 0.6 and 6.6: these literals
    denote the two doubles of the series, for which the code returns
    [-1, 8], while the domain of exact arithmetic is [0, 8]. The
    range is rounded to 6, a tenth of it to a double above 0.6, and
    the lower bound falls below zero. *)
Lemma yDomain_not_exact_reference :
  decimal (6 # 10) = Fin (5404319552844595 # 9007199254740992) /\
  decimal (66 # 10) = Fin (3715469692580659 # 562949953421312) /\
  yDomain series_06_66 = (Fin (-1), Fin 8) /\
  domain_reference series_06_66 = (Fin 0, Fin 8) /\
  yDomain series_06_66 <> domain_reference series_06_66.
Proof.
  vm_compute. repeat split; try reflexivity. discriminate.
Qed.

Lemma minimum_le_maximum (x : Q) (l : list Q) : (minimum x l <= maximum x l)%Q.
Proof.
  destruct (minimum_is_min_cons x l) as [_ Hmin].
  destruct (maximum_is_max_cons x l) as [_ Hmax].
  rewrite List.Forall_forall in Hmin, Hmax.
  apply Qle_trans with x; [apply Hmin | apply Hmax]; left; reflexivity.
Qed.

(** *** Covering *)

Lemma tenth_positive : Qsign_pos (3602879701896397 # 36028797018963968) = true.
Proof. vm_compute. reflexivity. Qed.

Lemma num_le_refl (n : number) : n <> NaN -> num_le n n.
Proof. destruct n; cbn; try tauto. intros _. apply Qle_refl. Qed.

Lemma Math_floor_le (n : number) : n <> NaN -> num_le (Math_floor n) n.
Proof. destruct n; cbn [Math_floor num_le]; try tauto. intros _. apply Qfloor_le. Qed.

Lemma Math_ceil_ge (n : number) : n <> NaN -> num_le n (Math_ceil n).
Proof. destruct n; cbn [Math_ceil num_le]; try tauto. intros _. apply Qle_ceiling. Qed.

Lemma num_le_not_NaN_l (a b : number) : num_le a b -> a <> NaN.
Proof. destruct a; cbn; [tauto | discriminate ..]. Qed.

Lemma num_le_not_NaN_r (a b : number) : num_le a b -> b <> NaN.
Proof. destruct a, b; cbn; try tauto; discriminate. Qed.

(** The padding is zero or more, whatever the range. *)
Lemma padding_num_nonneg (range : number) : num_le (Fin 0) (padding_num range).
Proof.
  unfold padding_num. rewrite decimal_tenth.
  destruct range as [| | |r]; try (cbn; discriminate); [exact I |].
  unfold num_gt. cbn [num_lt]. destruct (Qltb 0 r) eqn:E; [| cbn; discriminate].
  apply Qltb_true in E. cbn [num_mul]. rewrite <- round64_zero.
  apply round64_mono.
  apply Qmult_le_0_compat; [lra | discriminate].
Qed.

Lemma lower_covers (mn : Q) (padding : number) :
  is_double mn ->
  num_le (Fin 0) padding ->
  num_le (Math_floor (num_sub (Fin mn) padding)) (Fin mn).
Proof.
  intros Hd Hp. destruct padding as [| | |p]; try (cbn in Hp; contradiction).
  - exact I.
  - unfold num_sub. cbn [num_neg num_add]. cbn [num_le] in Hp.
    assert (H : num_le (round64 (mn + - p)) (Fin mn)).
    { apply num_le_trans with (round64 mn); [apply round64_mono; lra |].
      rewrite Hd. cbn [num_le]. rewrite Qred_correct. apply Qle_refl. }
    eapply num_le_trans; [apply Math_floor_le | exact H].
    apply round64_not_NaN.
Qed.

Lemma upper_covers (mx : Q) (padding : number) :
  is_double mx ->
  num_le (Fin 0) padding ->
  num_le (Fin mx) (Math_ceil (num_add (Fin mx) padding)).
Proof.
  intros Hd Hp. destruct padding as [| | |p]; try (cbn in Hp; contradiction).
  - exact I.
  - cbn [num_add]. cbn [num_le] in Hp.
    assert (H : num_le (Fin mx) (round64 (mx + p))).
    { apply num_le_trans with (round64 mx); [| apply round64_mono; lra].
      rewrite Hd. cbn [num_le]. rewrite Qred_correct. apply Qle_refl. }
    eapply num_le_trans; [exact H | apply Math_ceil_ge].
    apply round64_not_NaN.
Qed.

(** The bounds computed from two doubles enclose both. *)
Lemma domain_num_covers (mn mx : Q) :
  is_double mn -> is_double mx ->
  num_le (fst (domain_num (Fin mn) (Fin mx))) (Fin mn) /\
  num_le (Fin mx) (snd (domain_num (Fin mn) (Fin mx))).
Proof.
  intros Hn Hx. unfold domain_num. cbn [fst snd].
  split; [apply lower_covers | apply upper_covers];
    try assumption; apply padding_num_nonneg.
Qed.

(** Infinite extrema are enclosed as well. *)
Lemma domain_num_covers_infinite (a b : number) :
  a <> NaN -> b <> NaN ->
  (forall q, a = Fin q -> is_double q) ->
  (forall q, b = Fin q -> is_double q) ->
  num_le (fst (domain_num a b)) a /\ num_le b (snd (domain_num a b)).
Proof.
  intros Ha Hb Hda Hdb.
  destruct a as [| | |mn], b as [| | |mx]; try congruence;
    unfold domain_num; cbn [fst snd]; split.
  all: try (match goal with
            | |- num_le (Math_floor (num_sub (Fin _) _)) (Fin _) =>
                apply lower_covers; [apply Hda; reflexivity | apply padding_num_nonneg]
            | |- num_le (Fin _) (Math_ceil (num_add (Fin _) _)) =>
                apply upper_covers; [apply Hdb; reflexivity | apply padding_num_nonneg]
            end).
  all: unfold padding_num; rewrite ?decimal_tenth; cbn; rewrite ?tenth_positive; exact I.
Qed.

(** C2. For every series of doubles with a defined value, the lower
    bound of [yDomain] is at most the least defined value and the
    upper bound is at least the greatest one, an infinite bound
    included; hence every defined value lies within the domain. *)
Theorem yDomain_covers (data : list point) (mn mx : Q) :
  Forall is_double (defined_values data) ->
  is_min mn (defined_values data) ->
  is_max mx (defined_values data) ->
  exists lo hi : number,
    yDomain data = (lo, hi) /\
    num_le lo (Fin mn) /\ num_le (Fin mx) hi /\
    Forall (fun v => num_le lo (Fin v) /\ num_le (Fin v) hi) (defined_values data).
Proof.
  intros Hdbl Hmin Hmax.
  rewrite (yDomain_by_extrema data mn mx Hmin Hmax).
  rewrite List.Forall_forall in Hdbl.
  destruct (domain_num_covers mn mx (Hdbl mn (proj1 Hmin)) (Hdbl mx (proj1 Hmax)))
    as [Hlo Hhi].
  exists (fst (domain_num (Fin mn) (Fin mx))), (snd (domain_num (Fin mn) (Fin mx))).
  split; [apply surjective_pairing |]. split; [exact Hlo |]. split; [exact Hhi |].
  destruct Hmin as [_ Hmin], Hmax as [_ Hmax].
  rewrite List.Forall_forall in *. intros v Hv. split.
  - eapply num_le_trans; [exact Hlo |]. cbn [num_le]. apply Hmin, Hv.
  - eapply num_le_trans; [| exact Hhi]. cbn [num_le]. apply Hmax, Hv.
Qed.

Lemma scenarioA_min : is_min 705 (defined_values scenarioA).
Proof.
  split; [left; reflexivity |].
  repeat constructor; discriminate.
Defined.

Lemma scenarioA_max : is_max 725 (defined_values scenarioA).
Proof.
  split; [right; right; left; reflexivity |].
  repeat constructor; discriminate.
Defined.

Lemma scenarioA_doubles : Forall is_double (defined_values scenarioA).
Proof. repeat constructor. Defined.

(** Scenario A: the series 705, 715, 725 lies within its domain. *)
Lemma yDomain_covers_scenarioA :
  exists lo hi : number,
    yDomain scenarioA = (lo, hi) /\
    num_le lo (Fin 705) /\ num_le (Fin 725) hi /\
    Forall (fun v => num_le lo (Fin v) /\ num_le (Fin v) hi) (defined_values scenarioA).
Proof.
  exact (yDomain_covers scenarioA 705 725 scenarioA_doubles scenarioA_min scenarioA_max).
Defined.

(** ** The labelled extrema *)

Lemma find_split {A : Type} (f : A -> bool) (l : list A) (x : A) :
  List.find f l = Some x ->
  exists pre post, l = pre ++ x :: post /\ f x = true /\ Forall (fun y => f y = false) pre.
Proof.
  induction l as [|a l IH]; [discriminate |].
  cbn [List.find]. destruct (f a) eqn:E.
  - intros [= ->]. exists [], l. repeat split; [exact E | constructor].
  - intros H. destruct (IH H) as (pre & post & -> & Hx & Hpre).
    exists (a :: pre), post. repeat split; [exact Hx | constructor; assumption].
Qed.

Lemma find_In_some {A : Type} (f : A -> bool) (l : list A) (x : A) :
  In x l -> f x = true -> exists y, List.find f l = Some y.
Proof.
  intros Hin Hx. destruct (List.find f l) as [y|] eqn:E; [eauto |].
  pose proof (List.find_none f l E x Hin) as H. congruence.
Qed.

Lemma strict_equals_Fin (v : value) (m : Q) :
  strict_equals v (Fin m) = true <-> exists q, v = VNum q /\ (q == m)%Q.
Proof.
  destruct v; cbn; split; try discriminate;
    try (intros (q' & [=] & _); fail).
  - intros H. exists q. split; [reflexivity | apply Qeq_bool_iff, H].
  - intros (q' & [= <-] & H). apply Qeq_bool_iff, H.
Qed.

Lemma strict_equals_PosInf (v : value) : strict_equals v PosInf = false.
Proof. destruct v; reflexivity. Qed.

Lemma strict_equals_NegInf (v : value) : strict_equals v NegInf = false.
Proof. destruct v; reflexivity. Qed.

Lemma find_all_false {A : Type} (f : A -> bool) (l : list A) :
  (forall x, f x = false) -> List.find f l = None.
Proof.
  intros H. induction l as [|a l IH]; [reflexivity |].
  cbn [List.find]. now rewrite H.
Qed.

Lemma defined_values_In (data : list point) (q : Q) :
  In q (defined_values data) <-> exists p, In p data /\ actual p = VNum q.
Proof.
  unfold defined_values. induction data as [|a data IH]; cbn [omap list_omap In].
  - split; [intros [] | intros (p & [] & _)].
  - unfold defined_value at 1. split.
    + destruct (actual a) eqn:E;
        try (intros H; apply IH in H; destruct H as (p & Hp & Hq); eauto; fail).
      intros [<- | H]; [eauto |].
      apply IH in H. destruct H as (p & Hp & Hq); eauto.
    + intros (p & [<- | Hp] & Hq).
      * rewrite Hq. left. reflexivity.
      * assert (H : In q (omap defined_value data)) by (apply IH; eauto).
        destruct (actual a); try exact H. right. exact H.
Qed.

(** [data.find(p => p.actual === m)] for a number [m] that some
    point carries: the first point carrying it. *)
Lemma find_first_with_value (data : list point) (m m' : Q) :
  (m == m')%Q ->
  In m' (defined_values data) ->
  exists p, List.find (fun p => strict_equals (actual p) (Fin m)) data = Some p /\
            forall m'', (m == m'')%Q -> first_with_value m'' data p.
Proof.
  intros Hm Hin. apply defined_values_In in Hin. destruct Hin as (p0 & Hp0 & Hq0).
  destruct (find_In_some (fun p => strict_equals (actual p) (Fin m)) data p0 Hp0) as [p Hp].
  { apply strict_equals_Fin. exists m'. split; [exact Hq0 | now symmetry]. }
  exists p. split; [exact Hp |]. intros m'' Hm''.
  destruct (find_split _ _ _ Hp) as (pre & post & Hdata & Hx & Hpre).
  apply strict_equals_Fin in Hx. destruct Hx as (q & Hq & Hqm).
  exists pre, post, q. repeat split; try assumption.
  - now rewrite Hqm.
  - eapply List.Forall_impl; [| exact Hpre].
    intros p' Hp' q' Hq' Hc. cbv beta in Hp'.
    assert (strict_equals (actual p') (Fin m) = true) as Ht.
    { apply strict_equals_Fin. exists q'. split; [exact Hq' | now rewrite Hc]. }
    congruence.
Qed.

Lemma minValue_defined (data : list point) (x : Q) (l : list Q) :
  defined_values data = x :: l -> minValue data = Fin (pick Qltb x l).
Proof.
  intros Hd. unfold minValue. rewrite actualNumbers_defined, Hd. apply Math_min_Fin.
Qed.

Lemma maxValue_defined (data : list point) (x : Q) (l : list Q) :
  defined_values data = x :: l ->
  maxValue data = Fin (pick (fun x best => Qltb best x) x l).
Proof.
  intros Hd. unfold maxValue. rewrite actualNumbers_defined, Hd. apply Math_max_Fin.
Qed.

Lemma minPoint_first (data : list point) (mn : Q) :
  is_min mn (defined_values data) ->
  exists p, minPoint data = Some p /\ first_with_value mn data p.
Proof.
  intros Hmin. destruct (In_nonempty _ _ (proj1 Hmin)) as (x & l & Hd).
  unfold minPoint. rewrite (minValue_defined data x l Hd).
  rewrite Hd in Hmin.
  pose proof (is_min_unique _ _ _ (pick_is_min x l) Hmin) as Hlo.
  destruct (find_first_with_value data _ mn Hlo) as (p & Hf & Hp);
    [rewrite Hd; apply Hmin |].
  exists p. split; [exact Hf | apply Hp, Hlo].
Qed.

Lemma maxPoint_first (data : list point) (mx : Q) :
  is_max mx (defined_values data) ->
  exists p, maxPoint data = Some p /\ first_with_value mx data p.
Proof.
  intros Hmax. destruct (In_nonempty _ _ (proj1 Hmax)) as (x & l & Hd).
  unfold maxPoint. rewrite (maxValue_defined data x l Hd).
  rewrite Hd in Hmax.
  pose proof (is_max_unique _ _ _ (pick_is_max x l) Hmax) as Hhi.
  destruct (find_first_with_value data _ mx Hhi) as (p & Hf & Hp);
    [rewrite Hd; apply Hmax |].
  exists p. split; [exact Hf | apply Hp, Hhi].
Qed.

Lemma extrema_none (data : list point) :
  defined_values data = [] -> minPoint data = None /\ maxPoint data = None.
Proof.
  intros Hd. unfold minPoint, maxPoint, minValue, maxValue.
  rewrite actualNumbers_defined, Hd. cbn [map Math_min Math_max fold_left].
  split; apply find_all_false; intros p.
  - apply strict_equals_PosInf.
  - apply strict_equals_NegInf.
Qed.

(** C3. For every series: without a defined value the extrema are the
    empty list; otherwise they are the first point whose value is the
    least defined value, then the first point whose value is the
    greatest defined value. *)
Theorem visibleMinMaxPoints_extrema (data : list point) :
  (defined_values data = [] -> visibleMinMaxPoints data = []) /\
  (forall mn mx : Q,
      is_min mn (defined_values data) ->
      is_max mx (defined_values data) ->
      exists pmin pmax,
        visibleMinMaxPoints data = [pmin; pmax] /\
        first_with_value mn data pmin /\
        first_with_value mx data pmax).
Proof.
  split.
  - intros Hd. destruct (extrema_none data Hd) as [Hmin Hmax].
    unfold visibleMinMaxPoints. now rewrite Hmin, Hmax.
  - intros mn mx Hmin Hmax.
    destruct (minPoint_first data mn Hmin) as (pmin & Hfmin & Hpmin).
    destruct (maxPoint_first data mx Hmax) as (pmax & Hfmax & Hpmax).
    exists pmin, pmax. unfold visibleMinMaxPoints. rewrite Hfmin, Hfmax.
    repeat split; assumption.
Qed.

(** Scenario A: the extrema of 705, 715, 725 are the points at
    [t = 0] and [t = 2]. *)
Lemma visibleMinMaxPoints_extrema_scenarioA :
  exists pmin pmax,
    visibleMinMaxPoints scenarioA = [pmin; pmax] /\
    first_with_value 705 scenarioA pmin /\
    first_with_value 725 scenarioA pmax.
Proof.
  exact (proj2 (visibleMinMaxPoints_extrema scenarioA) 705%Q 725%Q scenarioA_min scenarioA_max).
Defined.

(** ** Flat series *)

Lemma strict_equals_comp (v : value) (m m' : Q) :
  (m == m')%Q -> strict_equals v (Fin m) = strict_equals v (Fin m').
Proof.
  intros H. destruct v; try reflexivity. cbn.
  destruct (Qeq_bool q m) eqn:E, (Qeq_bool q m') eqn:E'; try reflexivity.
  - apply Qeq_bool_iff in E. apply Qeq_bool_neq in E'. exfalso. apply E'. now rewrite E.
  - apply Qeq_bool_iff in E'. apply Qeq_bool_neq in E. exfalso. apply E. now rewrite E'.
Qed.

Lemma find_extensional {A : Type} (f g : A -> bool) (l : list A) :
  (forall x, f x = g x) -> List.find f l = List.find g l.
Proof.
  intros H. induction l as [|a l IH]; [reflexivity |].
  cbn [List.find]. rewrite H, IH. reflexivity.
Qed.

Lemma flat_is_min (data : list point) (x : Q) (l : list Q) :
  defined_values data = x :: l -> flat data -> is_min x (x :: l) /\ is_max x (x :: l).
Proof.
  intros Hd Hflat. unfold flat in Hflat. rewrite Hd in Hflat.
  split; (split; [left; reflexivity |]); apply List.Forall_forall; intros y Hy.
  - rewrite (Hflat x y); [apply Qle_refl | left; reflexivity | exact Hy].
  - rewrite (Hflat y x); [apply Qle_refl | exact Hy | left; reflexivity].
Qed.

Lemma flat_minPoint_maxPoint (data : list point) :
  defined_values data <> [] -> flat data -> minPoint data = maxPoint data.
Proof.
  intros Hne Hflat. destruct (defined_values data) as [|x l] eqn:Hd; [congruence |].
  destruct (flat_is_min data x l Hd Hflat) as [Hmin Hmax].
  unfold minPoint, maxPoint.
  rewrite (minValue_defined data x l Hd), (maxValue_defined data x l Hd).
  apply find_extensional. intros p. apply strict_equals_comp.
  rewrite (is_min_unique _ _ _ (pick_is_min x l) Hmin).
  rewrite (is_max_unique _ _ _ (pick_is_max x l) Hmax).
  reflexivity.
Qed.

Lemma flat_first_defined (data : list point) (m : Q) (p : point) :
  flat data -> In m (defined_values data) ->
  first_with_value m data p -> first_defined data p.
Proof.
  intros Hflat Hm (pre & post & q & Hdata & Hq & Hqm & Hpre).
  exists pre, post, q. repeat split; try assumption.
  rewrite List.Forall_forall in *. intros p' Hp'.
  unfold defined_value. destruct (actual p') as [| | |q'| |] eqn:E; try reflexivity.
  exfalso. apply (Hpre p' Hp' q' E).
  apply Hflat; [| exact Hm].
  apply defined_values_In. exists p'. split; [| exact E].
  rewrite Hdata. apply List.in_or_app. left. exact Hp'.
Qed.

(** C4, as the code has it. For every flat series: with a defined
    value, the extrema are the first point that carries a number,
    listed twice, once as the minimum and once as the maximum;
    without a defined value, they are the empty list. *)
Theorem flat_series_extrema (data : list point) :
  flat data ->
  (defined_values data = [] -> visibleMinMaxPoints data = []) /\
  (defined_values data <> [] ->
   exists p, visibleMinMaxPoints data = [p; p] /\ first_defined data p).
Proof.
  intros Hflat. split.
  - intros Hd. destruct (extrema_none data Hd) as [Hmin Hmax].
    unfold visibleMinMaxPoints. now rewrite Hmin, Hmax.
  - intros Hne.
    pose proof (flat_minPoint_maxPoint data Hne Hflat) as Heq.
    destruct (defined_values data) as [|x l] eqn:Hd; [congruence |].
    destruct (flat_is_min data x l Hd Hflat) as [Hmin _].
    rewrite <- Hd in Hmin.
    destruct (minPoint_first data x Hmin) as (p & Hf & Hp).
    exists p. unfold visibleMinMaxPoints. rewrite <- Heq, Hf.
    split; [reflexivity |].
    apply (flat_first_defined data x p Hflat); [rewrite Hd; left; reflexivity | exact Hp].
Qed.

Lemma scenarioC_flat : flat scenarioC.
Proof.
  intros x y Hx Hy. cbn in Hx, Hy.
  destruct Hx as [<- | [<- | [<- | []]]], Hy as [<- | [<- | [<- | []]]]; reflexivity.
Defined.

(** Scenario C, three readings of 50: the point at [t = 0] twice. *)
Lemma flat_series_extrema_scenarioC :
  exists p, visibleMinMaxPoints scenarioC = [p; p] /\ first_defined scenarioC p.
Proof.
  apply (proj2 (flat_series_extrema scenarioC scenarioC_flat)). discriminate.
Defined.

(** C4, as stated, fails on scenario C: a flat, non-empty series for
    which the extrema hold two entries, both the point at [t = 0],
    and not one. *)
Lemma flat_series_not_single :
  scenarioC <> [] /\ flat scenarioC /\
  visibleMinMaxPoints scenarioC = [mk "0" (VNum 50) false; mk "0" (VNum 50) false] /\
  ~ (exists p, visibleMinMaxPoints scenarioC = [p]).
Proof.
  split; [discriminate |]. split; [exact scenarioC_flat |].
  split; [vm_compute; reflexivity |].
  intros [p H]. vm_compute in H. discriminate H.
Qed.

(** ** The projection *)

Lemma lookup_map {A B : Type} (f : A -> B) (l : list A) (i : nat) :
  map f l !! i = f <$> (l !! i).
Proof.
  revert i. induction l as [|a l IH]; intros [|i]; cbn; try reflexivity. apply IH.
Qed.

Lemma processedChartData_map (readings : list object) (p : string) :
  processedChartData (Some readings) p =
  map (fun point =>
         {| time := prop point "time";
            actual := prop point p;
            is_violation := js_or (prop point "is_violation") (VBool false) |})
      readings.
Proof. destruct readings; reflexivity. Qed.

Lemma AppJs_time (point : object) (p : string) :
  prop (<["actual" := prop point p]> (<["time" := prop point "time"]> point)) "time"
  = prop point "time".
Proof.
  unfold prop at 1. rewrite lookup_insert_ne by discriminate.
  rewrite lookup_insert_eq. reflexivity.
Qed.

(** C5. For every sequence of readings and every parameter, the
    projection has as many points as there are readings, and its
    i-th point carries the time of the i-th reading; so does the
    projection of the earlier revision. *)
Theorem processedChartData_length_order (readings : list object) (p : string) :
  (length (processedChartData (Some readings) p) = length readings /\
   forall i : nat,
     time <$> (processedChartData (Some readings) p !! i)
     = (fun r => prop r "time") <$> (readings !! i)) /\
  (length (AppJs.processedChartData readings p) = length readings /\
   forall i : nat,
     (fun o => prop o "time") <$> (AppJs.processedChartData readings p !! i)
     = (fun r => prop r "time") <$> (readings !! i)).
Proof.
  split; split.
  - rewrite processedChartData_map. apply List.length_map.
  - intros i. rewrite processedChartData_map, lookup_map.
    destruct (readings !! i); reflexivity.
  - apply List.length_map.
  - intros i. unfold AppJs.processedChartData. rewrite lookup_map.
    destruct (readings !! i) as [r|]; cbn; [| reflexivity].
    now rewrite AppJs_time.
Qed.

Lemma prop_number (r : object) (k : string) (q : Q) :
  prop r k = VNum q <-> r !! k = Some (VNum q).
Proof.
  unfold prop. destruct (r !! k) as [v|]; cbn; split; congruence.
Qed.

(** C6. For every sequence of readings and every parameter, reading
    and projected point correspond one to one, and a point holds a
    number if and only if its reading carries a number for the
    parameter; the value is the reading's own, and the value of a
    reading without the parameter stays [undefined]. *)
Theorem processedChartData_value_iff (readings : list object) (p : string) :
  Forall2 (fun r pt =>
             (has_number pt <-> carries_number r p) /\
             actual pt = prop r p /\
             (r !! p = None -> actual pt = VUndefined))
          readings (processedChartData (Some readings) p).
Proof.
  rewrite processedChartData_map.
  induction readings as [|r readings IH]; constructor; [| exact IH].
  cbn. split; [| split; [reflexivity |]].
  - unfold has_number, carries_number. cbn.
    split; intros [q H]; exists q; apply prop_number, H.
  - intros H. unfold prop. now rewrite H.
Qed.

(** ** The violation flag *)

Lemma js_or_false (flag : value) :
  js_or flag (VBool false) = (if truthy flag then flag else VBool false) /\
  js_or flag (VBool false) <> VUndefined /\
  (truthy flag = false -> js_or flag (VBool false) = VBool false) /\
  (forall b, flag = VBool b -> js_or flag (VBool false) = VBool b).
Proof.
  unfold js_or. destruct (truthy flag) eqn:T.
  - split; [reflexivity |]. split; [intros ->; discriminate T |].
    split; [discriminate |]. intros b ->. reflexivity.
  - split; [reflexivity |]. split; [discriminate |].
    split; [reflexivity |]. intros b ->. cbn in T. now subst.
Qed.

(** C10, as the code has it. For every sequence of readings and every
    parameter, each projected flag is the reading's own flag when
    that flag is truthy and [false] otherwise; hence it is never
    [undefined], it is [false] whenever the reading's flag is
    missing or falsy, and it is the same boolean whenever the
    reading's flag is a boolean. *)
Theorem processedChartData_flag (readings : list object) (p : string) :
  Forall2 (fun r pt =>
             let flag := prop r "is_violation" in
             is_violation pt = (if truthy flag then flag else VBool false) /\
             is_violation pt <> VUndefined /\
             (truthy flag = false -> is_violation pt = VBool false) /\
             (forall b, flag = VBool b -> is_violation pt = VBool b))
          readings (processedChartData (Some readings) p).
Proof.
  rewrite processedChartData_map.
  induction readings as [|r readings IH]; constructor; [| exact IH].
  cbn. apply js_or_false.
Qed.

(** C10, as stated, fails on a reading whose flag is the number 1:
    the flag is truthy, and the projected flag is the number 1, not
    the boolean [true]. *)
Lemma processedChartData_flag_number :
  truthy (prop reading_flag_one "is_violation") = true /\
  map is_violation (processedChartData (Some [reading_flag_one]) "metal_temperature")
  = [VNum 1] /\
  typeof (VNum 1) = "number" /\
  VNum 1 <> VBool true.
Proof.
  repeat split; try reflexivity. discriminate.
Qed.

(** ** The threshold slots *)

Lemma get_unfold (q : string) (st : state) :
  get q st =
  getCurrentThreshold {|
    selectedParameter := q;
    metalTempThreshold := metalTempThreshold st;
    metalTempLowerThreshold := metalTempLowerThreshold st;
    solidificationTimeThreshold := solidificationTimeThreshold st;
    solidificationTimeLowerThreshold := solidificationTimeLowerThreshold st;
    tiltingAngleThreshold := tiltingAngleThreshold st;
    tiltingAngleLowerThreshold := tiltingAngleLowerThreshold st;
    tiltingSpeedThreshold := tiltingSpeedThreshold st;
    tiltingSpeedLowerThreshold := tiltingSpeedLowerThreshold st;
    topDieTempThreshold := topDieTempThreshold st;
    topDieTempLowerThreshold := topDieTempLowerThreshold st |}.
Proof. reflexivity. Qed.

(** C7. For every state, every side and every input whose integer
    parse fails, [updateThreshold] ends normally and leaves the state
    as it was; a later read of any parameter returns the pair it
    returned before. *)
Theorem updateThreshold_rejects (st : state) (type value : string) :
  isNaN (parseInt value) = true ->
  updateThreshold type value st = Normal (tt, st) /\
  forall q : string,
    result ((_ <- updateThreshold type value ;; get q) st) = result (get q st).
Proof.
  intros Hnan.
  assert (H : updateThreshold type value st = Normal (tt, st))
    by (unfold updateThreshold; now rewrite Hnan).
  split; [exact H |]. intros q. unfold bind at 1. now rewrite H.
Qed.

(** Scenario D: the text [abc] typed into the upper bound of the
    initial state. *)
Lemma updateThreshold_rejects_abc :
  updateThreshold "upper" "abc" initial_state = Normal (tt, initial_state) /\
  forall q : string,
    result ((_ <- updateThreshold "upper" "abc" ;; get q) initial_state)
    = result (get q initial_state).
Proof.
  apply (updateThreshold_rejects initial_state "upper" "abc"). reflexivity.
Defined.

(** C8, as the code has it. For every state whose selected parameter
    is none of the five, [getCurrentThreshold] ends normally with a
    pair whose bounds are both [undefined]. *)
Theorem getCurrentThreshold_unknown (st : state) :
  ~ In (selectedParameter st) parameters ->
  getCurrentThreshold st = Normal ({| upper := None; lower := None |}, st).
Proof.
  intros Hnot. unfold getCurrentThreshold, bind, read.
  string_cases; try reflexivity; exfalso; apply Hnot; unfold parameters;
    match goal with H : selectedParameter st = _ |- _ => rewrite H end;
    cbn; tauto.
Qed.

Lemma getCurrentThreshold_unknown_empty :
  getCurrentThreshold unselected_state
  = Normal ({| upper := None; lower := None |}, unselected_state).
Proof.
  apply (getCurrentThreshold_unknown unselected_state).
  cbn. intros [H | [H | [H | [H | [H | []]]]]]; discriminate H.
Defined.

(** C8, as stated, fails on the empty string, which is none of the
    five parameters: the read ends normally with a pair of
    [undefined] bounds and throws nothing. *)
Lemma getCurrentThreshold_does_not_throw :
  ~ In "" parameters /\
  result (get "" initial_state) = Normal {| upper := None; lower := None |} /\
  forall e : string, result (get "" initial_state) <> Throw e.
Proof.
  split; [cbn; intros [H | [H | [H | [H | [H | []]]]]]; discriminate H |].
  split; [reflexivity | intros e; discriminate].
Qed.

Lemma isNaN_false (n : number) : isNaN n = false -> n <> NaN.
Proof. intros H ->. discriminate H. Qed.

(** What a successful [updateThreshold] leaves behind, read through
    [get]: the selection, every other parameter's pair, and the
    opposite bound of the selected parameter are as before. *)
Lemma updateThreshold_accepts (st : state) (type value : string) :
  isNaN (parseInt value) = false ->
  exists st',
    updateThreshold type value st = Normal (tt, st') /\
    selectedParameter st' = selectedParameter st /\
    (forall q : string,
        q <> selectedParameter st -> result (get q st') = result (get q st)) /\
    (forall t t' : thresholds,
        result (get (selectedParameter st) st) = Normal t ->
        result (get (selectedParameter st) st') = Normal t' ->
        if String.eqb type "upper" then lower t' = lower t else upper t' = upper t).
Proof.
  intros Hok. unfold updateThreshold. rewrite Hok.
  unfold bind at 1, read at 1.
  destruct (String.eqb_spec (selectedParameter st) "metal_temperature") as [Hp | _];
    [| destruct (String.eqb_spec (selectedParameter st) "solidification_time") as [Hp | _];
       [| destruct (String.eqb_spec (selectedParameter st) "tilting_angle") as [Hp | _];
          [| destruct (String.eqb_spec (selectedParameter st) "tilting_speed") as [Hp | _];
             [| destruct (String.eqb_spec (selectedParameter st) "top_die_temperature")
                  as [Hp | _]]]]].
  all: try (destruct (String.eqb_spec type "upper") as [Ht | Ht]).
  all: eexists; (split; [reflexivity |]); (split; [reflexivity |]).
  all: split;
    [ intros q Hq; rewrite !get_unfold; unfold getCurrentThreshold, bind, read, ret;
      cbn [selectedParameter metalTempThreshold metalTempLowerThreshold
           solidificationTimeThreshold solidificationTimeLowerThreshold
           tiltingAngleThreshold tiltingAngleLowerThreshold
           tiltingSpeedThreshold tiltingSpeedLowerThreshold
           topDieTempThreshold topDieTempLowerThreshold];
      string_cases; try reflexivity; congruence
    | intros t t'; rewrite !get_unfold, ?Hp;
      unfold getCurrentThreshold, bind, read, ret; cbn;
      intros H1 H2;
      first [ inversion H1; inversion H2; reflexivity | congruence ] ].
Qed.

Lemma setSelectedParameter_keeps (st : state) (p q : string) :
  exists st',
    setSelectedParameter p st = Normal (tt, st') /\
    result (get q st') = result (get q st).
Proof. eexists. split; reflexivity. Qed.

(** X13. While one of the five parameters is selected, an input that
    parses is stored: the bound read back on the edited side is the
    parsed number. *)
Lemma updateThreshold_writes (st : state) (type value : string) :
  isNaN (parseInt value) = false ->
  In (selectedParameter st) parameters ->
  exists st' t',
    updateThreshold type value st = Normal (tt, st') /\
    result (get (selectedParameter st) st') = Normal t' /\
    (if String.eqb type "upper" then upper t' else lower t') = Some (parseInt value).
Proof.
  intros Hok Hin. unfold updateThreshold. rewrite Hok.
  unfold bind at 1, read at 1.
  cbn in Hin. destruct Hin as [Hp | [Hp | [Hp | [Hp | [Hp | []]]]]];
    rewrite <- Hp; cbn [String.eqb Ascii.eqb Bool.eqb];
    destruct (String.eqb_spec type "upper");
    eexists; eexists; (split; [reflexivity |]); split; reflexivity.
Qed.

(** C9. For every state: a successful [updateThreshold] keeps the
    selection, the pair of every other parameter and the opposite
    bound of the selected parameter; and selecting a parameter keeps
    the pair of every parameter. *)
Theorem threshold_frame (st : state) :
  (forall type value : string,
      isNaN (parseInt value) = false ->
      exists st',
        updateThreshold type value st = Normal (tt, st') /\
        selectedParameter st' = selectedParameter st /\
        (forall q : string,
            q <> selectedParameter st -> result (get q st') = result (get q st)) /\
        (forall t t' : thresholds,
            result (get (selectedParameter st) st) = Normal t ->
            result (get (selectedParameter st) st') = Normal t' ->
            if String.eqb type "upper" then lower t' = lower t else upper t' = upper t)) /\
  (forall p q : string,
      exists st',
        setSelectedParameter p st = Normal (tt, st') /\
        result (get q st') = result (get q st)).
Proof.
  split.
  - intros type value. apply updateThreshold_accepts.
  - apply setSelectedParameter_keeps.
Qed.

(** The upper bound of the metal temperature set to 725 in the
    initial state. *)
Lemma threshold_frame_725 :
  exists st',
    updateThreshold "upper" "725" initial_state = Normal (tt, st') /\
    selectedParameter st' = "metal_temperature" /\
    (forall q : string,
        q <> "metal_temperature" -> result (get q st') = result (get q initial_state)) /\
    (forall t t' : thresholds,
        result (get "metal_temperature" initial_state) = Normal t ->
        result (get "metal_temperature" st') = Normal t' ->
        lower t' = lower t).
Proof.
  apply (proj1 (threshold_frame initial_state) "upper" "725"). reflexivity.
Defined.

(** * Further properties *)

(** ** The axis domain in terms of the extrema *)

Lemma defined_values_extrema (data : list point) (x : Q) (l : list Q) :
  defined_values data = x :: l ->
  exists mn mx, is_min mn (defined_values data) /\ is_max mx (defined_values data).
Proof.
  intros Hd. rewrite Hd.
  exists (pick Qltb x l), (pick (fun x best => Qltb best x) x l).
  split; [apply pick_is_min | apply pick_is_max].
Qed.

Lemma is_min_le_is_max (mn mx : Q) (l : list Q) : is_min mn l -> is_max mx l -> (mn <= mx)%Q.
Proof.
  intros [Hin _] [_ Hle]. rewrite List.Forall_forall in Hle. apply Hle, Hin.
Qed.

(** X2. Two series with the same least and the same greatest defined
    value have the same [yDomain]: order, repetitions, values in
    between and points without a number do not count. *)
Theorem yDomain_extrema_determined (data data' : list point) (mn mx : Q) :
  is_min mn (defined_values data) ->
  is_max mx (defined_values data) ->
  is_min mn (defined_values data') ->
  is_max mx (defined_values data') ->
  yDomain data = yDomain data'.
Proof.
  intros Hmin Hmax Hmin' Hmax'.
  rewrite (yDomain_by_extrema data mn mx Hmin Hmax).
  rewrite (yDomain_by_extrema data' mn mx Hmin' Hmax'). reflexivity.
Qed.

Lemma yDomain_extrema_determined_example :
  yDomain scenarioA
  = yDomain [mk "9" (VNum 725) false; mk "8" VNull true; mk "7" (VNum 705) false].
Proof.
  apply (yDomain_extrema_determined _ _ 705 725);
    try exact scenarioA_min; try exact scenarioA_max.
  - split; [right; left; reflexivity | repeat constructor; discriminate].
  - split; [left; reflexivity | repeat constructor; discriminate].
Defined.

Lemma yDomain_bounds (data : list point) :
  Forall is_double (defined_values data) ->
  defined_values data <> [] ->
  exists lo hi : number,
    yDomain data = (lo, hi) /\
    Forall (fun v => num_le lo (Fin v) /\ num_le (Fin v) hi) (defined_values data).
Proof.
  intros Hdbl Hne. destruct (defined_values data) as [|x l] eqn:Hd; [congruence |].
  destruct (defined_values_extrema data x l Hd) as (mn & mx & Hmin & Hmax).
  rewrite (yDomain_by_extrema data mn mx Hmin Hmax).
  rewrite Hd in Hmin, Hmax. rewrite List.Forall_forall in Hdbl.
  destruct (domain_num_covers mn mx (Hdbl mn (proj1 Hmin)) (Hdbl mx (proj1 Hmax)))
    as [Hlo Hhi].
  exists (fst (domain_num (Fin mn) (Fin mx))), (snd (domain_num (Fin mn) (Fin mx))).
  split; [apply surjective_pairing |].
  destruct Hmin as [_ Hmin], Hmax as [_ Hmax].
  rewrite List.Forall_forall in *. intros v Hv. split.
  - eapply num_le_trans; [exact Hlo |]. cbn [num_le]. apply Hmin, Hv.
  - eapply num_le_trans; [| exact Hhi]. cbn [num_le]. apply Hmax, Hv.
Qed.

(** ** The labelled extrema, again *)

Lemma first_with_value_In (m : Q) (data : list point) (p : point) :
  first_with_value m data p ->
  In p data /\ exists q, actual p = VNum q /\ (q == m)%Q.
Proof.
  intros (pre & post & q & -> & Hq & Hqm & _). split; [| eauto].
  apply List.in_or_app. right. left. reflexivity.
Qed.

(** X4. For every series, the labelled extrema are either no point
    at all, exactly when no value is defined, or two entries: both
    are points of the series that carry a number, and the number of
    the first is at most that of the second. There is never a single
    entry. *)
Theorem visibleMinMaxPoints_shape (data : list point) :
  (defined_values data = [] /\ visibleMinMaxPoints data = []) \/
  (exists (p q : point) (vp vq : Q),
      visibleMinMaxPoints data = [p; q] /\
      In p data /\ In q data /\
      actual p = VNum vp /\ actual q = VNum vq /\ (vp <= vq)%Q).
Proof.
  destruct (defined_values data) as [|x l] eqn:Hd.
  - left. split; [reflexivity |].
    destruct (extrema_none data Hd) as [Hmin Hmax].
    unfold visibleMinMaxPoints. now rewrite Hmin, Hmax.
  - right. destruct (defined_values_extrema data x l Hd) as (mn & mx & Hmin & Hmax).
    destruct (minPoint_first data mn Hmin) as (p & Hfp & Hp).
    destruct (maxPoint_first data mx Hmax) as (q & Hfq & Hq).
    apply first_with_value_In in Hp. destruct Hp as (Hpin & vp & Hvp & Hvpm).
    apply first_with_value_In in Hq. destruct Hq as (Hqin & vq & Hvq & Hvqm).
    exists p, q, vp, vq. unfold visibleMinMaxPoints. rewrite Hfp, Hfq.
    repeat split; try assumption.
    rewrite Hvpm, Hvqm. exact (is_min_le_is_max _ _ _ Hmin Hmax).
Qed.

Lemma filter_Boolean_In (xs : list (option point)) (p : point) :
  In p (filter_Boolean xs) <-> In (Some p) xs.
Proof.
  induction xs as [|[a|] xs IH]; cbn; [tauto | |].
  - rewrite IH. split; intros [H | H]; auto; [left; congruence | left; congruence].
  - rewrite IH. split; [auto | intros [H | H]; [discriminate | exact H]].
Qed.

Lemma find_some_In {A : Type} (f : A -> bool) (l : list A) (x : A) :
  List.find f l = Some x -> In x l /\ f x = true.
Proof. apply List.find_some. Qed.

(** X5. In a series of doubles, every labelled extremum carries a
    number that lies within the bounds of [yDomain] for the same
    series, an infinite bound included. *)
Theorem visibleMinMaxPoints_in_domain (data : list point) (p : point) :
  Forall is_double (defined_values data) ->
  In p (visibleMinMaxPoints data) ->
  exists (v : Q) (lo hi : number),
    actual p = VNum v /\
    yDomain data = (lo, hi) /\ num_le lo (Fin v) /\ num_le (Fin v) hi.
Proof.
  intros Hdbl Hin. unfold visibleMinMaxPoints in Hin. apply filter_Boolean_In in Hin.
  assert (Hp : In p data /\ exists v, actual p = VNum v).
  { destruct Hin as [H | [H | []]]; apply find_some_In in H;
      destruct H as [Hd Hs]; (split; [exact Hd |]);
      destruct (actual p); try discriminate Hs; eauto. }
  destruct Hp as (Hd & v & Hv).
  assert (Hvin : In v (defined_values data)) by (apply defined_values_In; eauto).
  destruct (yDomain_bounds data Hdbl) as (lo & hi & Hy & Hall).
  { intros E. rewrite E in Hvin. destruct Hvin. }
  rewrite List.Forall_forall in Hall. destruct (Hall v Hvin) as [H1 H2].
  exists v, lo, hi. repeat split; assumption.
Qed.

Lemma visibleMinMaxPoints_in_domain_scenarioA :
  exists (v : Q) (lo hi : number),
    actual (mk "0" (VNum 705) true) = VNum v /\
    yDomain scenarioA = (lo, hi) /\ num_le lo (Fin v) /\ num_le (Fin v) hi.
Proof.
  apply (visibleMinMaxPoints_in_domain scenarioA (mk "0" (VNum 705) true)).
  - exact scenarioA_doubles.
  - left. reflexivity.
Defined.

(** ** From the readings to the chart *)

Lemma defined_values_projection (readings : list object) (p : string) :
  defined_values (processedChartData (Some readings) p) = omap (reading_number p) readings.
Proof.
  rewrite processedChartData_map. unfold defined_values.
  induction readings as [|r readings IH]; [reflexivity |].
  cbn [map omap list_omap]. rewrite IH. reflexivity.
Qed.

Lemma omap_In {A B : Type} (f : A -> option B) (l : list A) (x : A) (y : B) :
  In x l -> f x = Some y -> In y (omap f l).
Proof.
  induction l as [|a l IH]; [intros [] |].
  intros [<- | Hin] Hf; cbn [omap list_omap].
  - rewrite Hf. left. reflexivity.
  - destruct (f a); [right |]; apply IH; assumption.
Qed.

Lemma omap_none {A B : Type} (f : A -> option B) (l : list A) :
  Forall (fun x => f x = None) l -> omap f l = [].
Proof.
  induction 1 as [|a l Ha _ IH]; [reflexivity |].
  cbn [omap list_omap]. now rewrite Ha, IH.
Qed.

Lemma omap_Forall {A B : Type} (f : A -> option B) (P : B -> Prop) (l : list A) :
  Forall (fun x => forall y, f x = Some y -> P y) l -> Forall P (omap f l).
Proof.
  induction 1 as [|a l Ha _ IH]; [constructor |].
  cbn [omap list_omap]. destruct (f a) as [b|] eqn:E; [| exact IH].
  constructor; [apply Ha; reflexivity | exact IH].
Qed.

Lemma double_readings_values (readings : list object) (p : string) :
  double_readings p readings ->
  Forall is_double (defined_values (processedChartData (Some readings) p)).
Proof.
  intros H. rewrite defined_values_projection. apply omap_Forall.
  eapply List.Forall_impl; [| exact H]. cbv beta.
  intros r Hr q Hq. apply Hr. unfold reading_number, prop in Hq.
  destruct (r !! p) as [[| | |q'| |]|]; try discriminate Hq. now inversion Hq.
Qed.

(** X6. For every sequence of readings whose numbers for the
    parameter are doubles, each of these numbers lies within the
    bounds of the axis computed for the projected series, an
    infinite bound included. *)
Theorem chart_covers_readings (readings : list object) (p : string) (r : object) (q : Q) :
  double_readings p readings ->
  In r readings ->
  r !! p = Some (VNum q) ->
  exists lo hi : number,
    yDomain (processedChartData (Some readings) p) = (lo, hi) /\
    num_le lo (Fin q) /\ num_le (Fin q) hi.
Proof.
  intros Hdbl Hin Hq.
  assert (Hv : In q (defined_values (processedChartData (Some readings) p))).
  { rewrite defined_values_projection. apply (omap_In _ _ r); [exact Hin |].
    unfold reading_number, prop. now rewrite Hq. }
  destruct (yDomain_bounds (processedChartData (Some readings) p)) as (lo & hi & Hy & Hall).
  { apply double_readings_values, Hdbl. }
  { intros E. rewrite E in Hv. destruct Hv. }
  rewrite List.Forall_forall in Hall. destruct (Hall q Hv) as [H1 H2].
  exists lo, hi. repeat split; assumption.
Qed.

Lemma chart_covers_readings_example :
  exists lo hi : number,
    yDomain (processedChartData
               (Some [reading "0" (VNum 705) (VBool true); reading "1" (VNum 715) VNull])
               "metal_temperature") = (lo, hi) /\
    num_le lo (Fin 715) /\ num_le (Fin 715) hi.
Proof.
  apply (chart_covers_readings _ "metal_temperature" (reading "1" (VNum 715) VNull) 715).
  - repeat constructor; intros q [= <-]; reflexivity.
  - right. left. reflexivity.
  - reflexivity.
Defined.

(** X7. When no reading holds a number for the selected parameter,
    as with no readings at all, an absent [chartData], or a
    parameter the fetched readings have no field for, the axis is
    [0, 100] and no extremum is labelled. *)
Theorem chart_without_numbers (chartData : option (list object)) (p : string) :
  match chartData with
  | Some readings => Forall (fun r => reading_number p r = None) readings
  | None => True
  end ->
  yDomain (processedChartData chartData p) = (Fin 0, Fin 100) /\
  visibleMinMaxPoints (processedChartData chartData p) = [].
Proof.
  intros H.
  assert (Hd : defined_values (processedChartData chartData p) = []).
  { destruct chartData as [readings|]; [| reflexivity].
    rewrite defined_values_projection. apply omap_none, H. }
  split.
  - unfold yDomain. rewrite allValues_defined, Hd. reflexivity.
  - destruct (extrema_none _ Hd) as [Hmin Hmax].
    unfold visibleMinMaxPoints. now rewrite Hmin, Hmax.
Qed.

Lemma chart_without_numbers_example :
  yDomain (processedChartData (Some [reading "0" (VNum 705) VNull]) "tilting_angle")
  = (Fin 0, Fin 100) /\
  visibleMinMaxPoints (processedChartData (Some [reading "0" (VNum 705) VNull]) "tilting_angle")
  = [].
Proof.
  apply (chart_without_numbers (Some [reading "0" (VNum 705) VNull]) "tilting_angle").
  repeat constructor.
Defined.

(** ** Violation markers *)

Lemma truthy_js_or_false (v : value) : truthy (js_or v (VBool false)) = truthy v.
Proof. unfold js_or. destruct (truthy v) eqn:E; [exact E | reflexivity]. Qed.

(** X8. For every sequence of readings and every parameter,
    [ViolationShape] draws a marker on a projected point exactly when
    the flag of its reading is truthy, wherever the point is placed;
    the marker is moved by 8 to the left and 8 up. *)
Theorem ViolationShape_marks_flagged (readings : list object) (p : string) :
  Forall2 (fun r pt =>
             forall cx cy : number,
               ViolationShape pt cx cy =
               if truthy (prop r "is_violation")
               then Some (num_sub cx (Fin 8), num_sub cy (Fin 8))
               else None)
          readings (processedChartData (Some readings) p).
Proof.
  rewrite processedChartData_map.
  induction readings as [|r readings IH]; constructor; [| exact IH].
  intros cx cy. unfold ViolationShape. cbn [is_violation].
  rewrite truthy_js_or_false. reflexivity.
Qed.

Lemma AppJs_flag (point : object) (p : string) :
  prop (<["actual" := prop point p]> (<["time" := prop point "time"]> point)) "is_violation"
  = prop point "is_violation".
Proof.
  unfold prop at 1. rewrite !lookup_insert_ne by discriminate. reflexivity.
Qed.

Lemma filter_map_commute {A B : Type} (f : A -> B) (g : B -> bool) (l : list A) :
  List.filter g (map f l) = map f (List.filter (fun x => g (f x)) l).
Proof.
  induction l as [|a l IH]; [reflexivity |].
  cbn [map List.filter]. destruct (g (f a)); cbn [map]; now rewrite IH.
Qed.

Lemma filter_extensional {A : Type} (f g : A -> bool) (l : list A) :
  (forall x, f x = g x) -> List.filter f l = List.filter g l.
Proof.
  intros H. induction l as [|a l IH]; [reflexivity |].
  cbn [List.filter]. now rewrite H, IH.
Qed.

(** X9. In the earlier revision, the points handed to the violation
    scatter are the projections of the readings whose flag is truthy,
    in the order of the readings. *)
Theorem violationData_flagged (chartData : list object) (p : string) :
  violationData chartData p =
  AppJs.processedChartData
    (List.filter (fun r => truthy (prop r "is_violation")) chartData) p.
Proof.
  unfold violationData, AppJs.processedChartData.
  rewrite filter_map_commute. f_equal.
  apply filter_extensional. intros r. now rewrite AppJs_flag.
Qed.

(** X10. Both revisions mark the same readings: the i-th point of
    the later projection has a truthy flag exactly when the i-th
    point of the earlier projection has. *)
Theorem revisions_flag_alike (chartData : list object) (p : string) :
  map (fun pt => truthy (is_violation pt)) (processedChartData (Some chartData) p)
  = map (fun d => truthy (prop d "is_violation")) (AppJs.processedChartData chartData p).
Proof.
  rewrite processedChartData_map. unfold AppJs.processedChartData.
  rewrite !List.map_map. apply List.map_ext. intros r.
  cbn [is_violation]. now rewrite truthy_js_or_false, AppJs_flag.
Qed.

(** X11. In the earlier revision, a projected point is the reading
    with [time] and [actual] set: [actual] is the reading's value for
    the parameter, and every other field is as in the reading. *)
Theorem AppJs_projection_keeps_fields (chartData : list object) (p : string) :
  Forall2 (fun r d =>
             d !! "actual" = Some (prop r p) /\
             d !! "time" = Some (prop r "time") /\
             forall k : string, k <> "actual" -> k <> "time" -> d !! k = r !! k)
          chartData (AppJs.processedChartData chartData p).
Proof.
  unfold AppJs.processedChartData.
  induction chartData as [|r chartData IH]; constructor; [| exact IH].
  split; [apply lookup_insert_eq |]. split.
  - rewrite lookup_insert_ne by discriminate. apply lookup_insert_eq.
  - intros k Ha Ht. rewrite !lookup_insert_ne by congruence. reflexivity.
Qed.

(** ** The threshold slots, again *)

Lemma initial_number_slots : number_slots initial_state.
Proof. unfold number_slots, initial_state. cbn. repeat split. Qed.

Lemma setSelectedParameter_number_slots (st st' : state) (p : string) :
  setSelectedParameter p st = Normal (tt, st') -> number_slots st -> number_slots st'.
Proof.
  unfold setSelectedParameter, write. intros [= <-] H. exact H.
Qed.

Lemma updateThreshold_number_slots (st st' : state) (type value : string) :
  updateThreshold type value st = Normal (tt, st') -> number_slots st -> number_slots st'.
Proof.
  unfold updateThreshold.
  destruct (isNaN (parseInt value)) eqn:Hnan; [intros [= <-] H; exact H |].
  unfold bind, read.
  string_cases; intros [= <-] H; try exact H;
    unfold number_slots in *; cbn; tauto.
Qed.

Lemma reachable_number_slots (st : state) : reachable st -> number_slots st.
Proof.
  induction 1 as [| st st' p _ IH H | st st' type value _ IH H].
  - apply initial_number_slots.
  - exact (setSelectedParameter_number_slots st st' p H IH).
  - exact (updateThreshold_number_slots st st' type value H IH).
Qed.

(** X12. In every state reached from the initial one by selecting
    parameters and editing bounds, in any order and with any input,
    [getCurrentThreshold] returns two numbers for each of the five
    parameters: a bound is never [undefined] and never NaN. *)
Theorem reachable_thresholds_numbers (st : state) :
  reachable st ->
  In (selectedParameter st) parameters ->
  exists u l : number,
    getCurrentThreshold st = Normal ({| upper := Some u; lower := Some l |}, st) /\
    isNaN u = false /\ isNaN l = false.
Proof.
  intros Hr Hin. apply reachable_number_slots in Hr.
  destruct Hr as (Ha & Hb & Hc & Hd & He & Hf & Hg & Hh & Hi & Hj).
  unfold getCurrentThreshold, bind, read, ret.
  cbn in Hin. destruct Hin as [Hp | [Hp | [Hp | [Hp | [Hp | []]]]]];
    rewrite <- Hp; cbn [String.eqb Ascii.eqb Bool.eqb];
    eexists; eexists; (split; [reflexivity |]); split; assumption.
Qed.

Lemma reachable_thresholds_numbers_example :
  exists st' : state,
    (_ <- updateThreshold "lower" "-5x" ;; setSelectedParameter "tilting_speed") initial_state
    = Normal (tt, st') /\
    exists u l : number,
      getCurrentThreshold st' = Normal ({| upper := Some u; lower := Some l |}, st') /\
      isNaN u = false /\ isNaN l = false.
Proof.
  eexists. split; [reflexivity |].
  apply reachable_thresholds_numbers.
  - eapply (reach_select _ _ "tilting_speed");
      [eapply (reach_update _ _ "lower" "-5x"); [apply reach_initial | reflexivity]
      | reflexivity].
  - right. right. right. left. reflexivity.
Defined.

(** X14. While the selected parameter is none of the five, for
    instance the empty string, [updateThreshold] changes nothing,
    whatever is typed. *)
Theorem updateThreshold_unknown (st : state) (type value : string) :
  ~ In (selectedParameter st) parameters ->
  updateThreshold type value st = Normal (tt, st).
Proof.
  intros Hnot. unfold updateThreshold.
  destruct (isNaN (parseInt value)); [reflexivity |].
  unfold bind, read.
  string_cases; try reflexivity; exfalso; apply Hnot; unfold parameters;
    match goal with H : selectedParameter st = _ |- _ => rewrite H end;
    cbn; tauto.
Qed.

Lemma updateThreshold_unknown_example :
  updateThreshold "upper" "725" unselected_state = Normal (tt, unselected_state).
Proof.
  apply (updateThreshold_unknown unselected_state "upper" "725").
  cbn. intros [H | [H | [H | [H | [H | []]]]]]; discriminate H.
Defined.

(** X15. Of two edits of the same bound the later one decides: when
    the second input parses, the state after both is the state after
    the second alone. *)
Theorem updateThreshold_overwrites (st : state) (type v1 v2 : string) :
  isNaN (parseInt v2) = false ->
  (_ <- updateThreshold type v1 ;; updateThreshold type v2) st
  = updateThreshold type v2 st.
Proof.
  intros H2. unfold updateThreshold. rewrite H2.
  destruct (isNaN (parseInt v1)); [reflexivity |].
  unfold bind, read.
  string_cases; cbn; string_cases; reflexivity || congruence.
Qed.

Lemma updateThreshold_overwrites_example :
  (_ <- updateThreshold "upper" "9" ;; updateThreshold "upper" "725") initial_state
  = updateThreshold "upper" "725" initial_state.
Proof.
  apply (updateThreshold_overwrites initial_state "upper" "9" "725"). reflexivity.
Defined.

(** X16. Edits of the two bounds commute: the upper bound then the
    lower one, or the lower one then the upper one, lead to the same
    state. *)
Theorem updateThreshold_sides_commute (st : state) (side v1 v2 : string) :
  side <> "upper" ->
  (_ <- updateThreshold "upper" v1 ;; updateThreshold side v2) st
  = (_ <- updateThreshold side v2 ;; updateThreshold "upper" v1) st.
Proof.
  intros Hside. unfold updateThreshold.
  destruct (isNaN (parseInt v1)), (isNaN (parseInt v2)); try reflexivity;
    unfold bind, read, ret;
    repeat first [progress cbn | progress string_cases];
    reflexivity || congruence.
Qed.

Lemma updateThreshold_sides_commute_example :
  (_ <- updateThreshold "upper" "725" ;; updateThreshold "lower" "715") initial_state
  = (_ <- updateThreshold "lower" "715" ;; updateThreshold "upper" "725") initial_state.
Proof.
  apply (updateThreshold_sides_commute initial_state "lower" "725" "715"). discriminate.
Defined.

Lemma updateThreshold_writes_example :
  exists st' t',
    updateThreshold "lower" "-12abc" initial_state = Normal (tt, st') /\
    result (get "metal_temperature" st') = Normal t' /\
    lower t' = Some (Fin (-12)).
Proof.
  apply (updateThreshold_writes initial_state "lower" "-12abc").
  - reflexivity.
  - left. reflexivity.
Defined.

Lemma parse_digits_app (s : string) (c : ascii) (rest : string) (acc : option Z) :
  digit_value c = None ->
  parse_digits (String.append s (String c rest)) acc = parse_digits s acc.
Proof.
  intros Hc. revert acc. induction s as [|a s IH]; intros acc.
  - change (parse_digits (String c rest) acc = acc). cbn [parse_digits]. now rewrite Hc.
  - change (parse_digits (String a (String.append s (String c rest))) acc
            = parse_digits (String a s) acc).
    cbn [parse_digits]. destruct (digit_value a); [apply IH | reflexivity].
Qed.

Lemma trim_start_app (s t : string) :
  trim_start s <> "" ->
  trim_start (String.append s t) = String.append (trim_start s) t.
Proof.
  induction s as [|a s IH]; [cbn; congruence |].
  change (trim_start (String a s) <> "" ->
          trim_start (String a (String.append s t)) = String.append (trim_start (String a s)) t).
  cbn [trim_start]. destruct (is_white_space a); [exact IH | reflexivity].
Qed.

Lemma parseInt_trim_nonempty (s : string) : isNaN (parseInt s) = false -> trim_start s <> "".
Proof.
  intros H E. unfold parseInt in H. rewrite E in H. discriminate H.
Qed.

(** What follows the leading integer does not count. *)
Lemma parseInt_app (s : string) (c : ascii) (rest : string) :
  isNaN (parseInt s) = false ->
  digit_value c = None ->
  parseInt (String.append s (String c rest)) = parseInt s.
Proof.
  intros Hs Hc. pose proof (parseInt_trim_nonempty s Hs) as Hne.
  unfold parseInt. rewrite (trim_start_app s _ Hne).
  destruct (trim_start s) as [|a r]; [congruence |].
  change (String.append (String a r) (String c rest))
    with (String a (String.append r (String c rest))).
  destruct a as [[] [] [] [] [] [] [] []]; cbv beta iota zeta;
    try change (String ?a (String.append r (String c rest)))
          with (String.append (String a r) (String c rest));
    rewrite parse_digits_app by exact Hc; reflexivity.
Qed.

(** X17. Whatever follows the leading integer of the input is
    dropped: an input that parses, continued by a character that is
    no digit and by anything else, is stored as the input alone; so
    a fraction is cut off. *)
Theorem updateThreshold_truncates (st : state) (type s : string) (c : ascii) (rest : string) :
  isNaN (parseInt s) = false ->
  digit_value c = None ->
  updateThreshold type (String.append s (String c rest)) st = updateThreshold type s st.
Proof.
  intros Hs Hc. unfold updateThreshold. now rewrite (parseInt_app s c rest Hs Hc).
Qed.

Lemma updateThreshold_truncates_example :
  updateThreshold "upper" "720.5" initial_state = updateThreshold "upper" "720" initial_state.
Proof.
  apply (updateThreshold_truncates initial_state "upper" "720" "." "5"); reflexivity.
Defined.

(** ** Reference lines *)

(** X18. While one of the five parameters is selected, after an
    input that parses the reference line of the edited bound is drawn
    at the parsed number, unless that number is zero: then the bound
    is stored and no line is drawn. *)
Theorem referenceLine_after_update (st : state) (type value : string) :
  isNaN (parseInt value) = false ->
  In (selectedParameter st) parameters ->
  exists st' t',
    updateThreshold type value st = Normal (tt, st') /\
    getCurrentThreshold st' = Normal (t', st') /\
    (if String.eqb type "upper" then upperLine t' else lowerLine t')
    = (if num_eq (parseInt value) (Fin 0) then None else Some (parseInt value)).
Proof.
  intros Hok Hin. unfold updateThreshold. rewrite Hok.
  unfold bind at 1, read at 1.
  assert (Hline : referenceLine (Some (parseInt value))
                  = if num_eq (parseInt value) (Fin 0) then None else Some (parseInt value)).
  { destruct (parseInt value) as [| | |q]; try discriminate Hok; try reflexivity.
    cbn. destruct (Qeq_bool q 0); reflexivity. }
  cbn in Hin. destruct Hin as [Hp | [Hp | [Hp | [Hp | [Hp | []]]]]];
    rewrite <- Hp; cbn [String.eqb Ascii.eqb Bool.eqb];
    destruct (String.eqb_spec type "upper");
    eexists; eexists; (split; [reflexivity |]);
    (split; [unfold getCurrentThreshold, bind, read, ret; cbn; rewrite <- Hp; reflexivity |]);
    exact Hline.
Qed.

Lemma referenceLine_after_update_zero :
  exists st' t',
    updateThreshold "lower" "0" initial_state = Normal (tt, st') /\
    getCurrentThreshold st' = Normal (t', st') /\
    lowerLine t' = None.
Proof.
  apply (referenceLine_after_update initial_state "lower" "0").
  - reflexivity.
  - left. reflexivity.
Defined.

(** ** Alerts *)

Lemma filter_filter_commute {A : Type} (f g : A -> bool) (l : list A) :
  List.filter f (List.filter g l) = List.filter g (List.filter f l).
Proof.
  induction l as [|a l IH]; [reflexivity |].
  cbn [List.filter]. destruct (f a) eqn:Ef, (g a) eqn:Eg; cbn [List.filter];
    rewrite ?Ef, ?Eg, IH; reflexivity.
Qed.

Lemma filter_idempotent {A : Type} (f : A -> bool) (l : list A) :
  List.filter f (List.filter f l) = List.filter f l.
Proof.
  induction l as [|a l IH]; [reflexivity |].
  cbn [List.filter]. destruct (f a) eqn:Ef; cbn [List.filter]; rewrite ?Ef, IH; reflexivity.
Qed.

Lemma filter_all_true {A : Type} (f : A -> bool) (l : list A) :
  Forall (fun x => f x = true) l -> List.filter f l = l.
Proof.
  induction 1 as [|a l Ha _ IH]; [reflexivity |].
  cbn [List.filter]. now rewrite Ha, IH.
Qed.

(** X19. Dismissals commute, and dismissing the same id again
    changes nothing. *)
Theorem dismissAlert_commute_idempotent (a b : value) (alerts : list object) :
  dismissAlert a (dismissAlert b alerts) = dismissAlert b (dismissAlert a alerts) /\
  dismissAlert a (dismissAlert a alerts) = dismissAlert a alerts.
Proof.
  unfold dismissAlert. split; [apply filter_filter_commute | apply filter_idempotent].
Qed.

(** X20. When an alert's id is a number, a string, a boolean or
    [null] and no other alert carries it, dismissing that id removes
    this alert alone: the alerts before and after it stay, in their
    order. *)
Theorem dismissAlert_removes_one (a : object) (before after : list object) :
  strict_equal (prop a "id") (prop a "id") = true ->
  Forall (fun b => strict_equal (prop b "id") (prop a "id") = false) (before ++ after) ->
  dismissAlert (prop a "id") (before ++ a :: after) = before ++ after.
Proof.
  intros Hid Hothers. apply List.Forall_app in Hothers. destruct Hothers as [Hb Ha].
  unfold dismissAlert. rewrite List.filter_app. cbn [List.filter]. rewrite Hid. cbn [negb].
  rewrite !filter_all_true; [reflexivity | |].
  - eapply List.Forall_impl; [| exact Ha]. cbv beta. now intros x ->.
  - eapply List.Forall_impl; [| exact Hb]. cbv beta. now intros x ->.
Qed.

Lemma dismissAlert_removes_one_example :
  dismissAlert (VNum 2)
    [alert (VNum 1) "M1"; alert (VNum 2) "M2"; alert (VNum 3) "M1"]
  = [alert (VNum 1) "M1"; alert (VNum 3) "M1"].
Proof.
  apply (dismissAlert_removes_one (alert (VNum 2) "M2")
           [alert (VNum 1) "M1"] [alert (VNum 3) "M1"]).
  - reflexivity.
  - repeat constructor.
Defined.

(** ** Selections after a fetch *)

Lemma includes_In (xs : list string) (x : string) : includes xs x = true <-> In x xs.
Proof.
  unfold includes. rewrite List.existsb_exists. split.
  - intros (y & Hy & E). apply String.eqb_eq in E. now subst.
  - intros H. exists x. split; [exact H | apply String.eqb_refl].
Qed.

Lemma includes_false (xs : list string) (x : string) : includes xs x = false <-> ~ In x xs.
Proof.
  rewrite <- includes_In. destruct (includes xs x); split; congruence.
Qed.

(** X21. After [fetchInitialData] has received the machine list, the
    selected machine is the empty string if the list is empty and a
    machine of the list otherwise; a selection that is still listed
    is kept unless an upload came before, and after an upload the
    first machine is selected. *)
Theorem fetchInitialData_selection (selectedMachine : string) (isAfterUpload : bool)
    (newMachines : list string) :
  let m := fetchInitialData_selectedMachine selectedMachine isAfterUpload newMachines in
  (newMachines = [] -> m = "") /\
  (newMachines <> [] -> In m newMachines) /\
  (isAfterUpload = false -> selectedMachine <> "" -> In selectedMachine newMachines ->
   m = selectedMachine) /\
  (isAfterUpload = true -> m = List.hd "" newMachines).
Proof.
  unfold fetchInitialData_selectedMachine.
  destruct newMachines as [|x ms]; cbn [length Nat.ltb Nat.leb List.hd].
  - repeat split; try reflexivity; try congruence. intros _ _ [].
  - split; [discriminate |]. split; [| split].
    + intros _. destruct isAfterUpload; cbn [orb]; [left; reflexivity |].
      destruct (negb (selectedMachine =? "")%string) eqn:E1; cbn [andb negb];
        [| left; reflexivity].
      destruct (includes (x :: ms) selectedMachine) eqn:E2; cbn [negb];
        [apply includes_In, E2 | left; reflexivity].
    + intros -> Hne Hin. cbn [orb].
      apply includes_In in Hin. rewrite Hin.
      apply String.eqb_neq in Hne. rewrite Hne. reflexivity.
    + intros ->. reflexivity.
Qed.

Lemma first_or_empty_In (xs : list string) : In (first_or_empty xs) xs \/ xs = [].
Proof. destruct xs; [right | left; left]; reflexivity. Qed.

(** X22. After a successful [fetchChartData] whose response lists
    feature columns: when the parameter the request was made for is
    listed, the state is left as it is; otherwise the selection
    becomes the first column, or the empty string when there is
    none. No threshold changes, and a response without the list
    changes nothing. *)
Theorem fetchChartData_selection (st : state) (requested : string)
    (feature_columns : option (list string)) :
  exists st',
    fetchChartData_selectedParameter requested feature_columns st = Normal (tt, st') /\
    (forall q : string, result (get q st') = result (get q st)) /\
    match feature_columns with
    | None => st' = st
    | Some columns =>
        (In requested columns -> st' = st) /\
        (~ In requested columns ->
         selectedParameter st' = first_or_empty columns /\
         (In (selectedParameter st') columns \/
          (columns = [] /\ selectedParameter st' = "")))
    end.
Proof.
  destruct feature_columns as [columns|]; cbn [fetchChartData_selectedParameter].
  - destruct (includes columns requested) eqn:E; cbn [negb].
    + exists st. split; [reflexivity |]. split; [reflexivity |]. split.
      * reflexivity.
      * intros Hnot. apply includes_In in E. contradiction.
    + eexists. split; [reflexivity |]. split; [reflexivity |]. split.
      * intros Hin. apply includes_false in E. contradiction.
      * intros _. cbn [selectedParameter]. split; [reflexivity |].
        destruct columns as [|c cs]; [right | left; left]; auto.
  - exists st. repeat split; reflexivity.
Qed.

Lemma parameters_NoDup : List.NoDup parameters.
Proof.
  unfold parameters. repeat constructor; cbn; intuition discriminate.
Qed.

Lemma parameterOptions_In (availableFeatures : list string) (p : string) :
  In p (parameterOptions availableFeatures) <-> In p parameters /\ In p availableFeatures.
Proof.
  unfold parameterOptions. rewrite List.filter_In, includes_In. reflexivity.
Qed.

(** X23. When every feature column the server lists is one of the
    five parameters and the selection has not changed since the
    request was made, then after a successful [fetchChartData] the
    selected parameter is one of the options the dropdown offers for
    these columns; or the list is empty, the selection is the empty
    string and the dropdown has no parameter to offer. *)
Theorem fetchChartData_selection_offered (st : state) (columns : list string) :
  Forall (fun c => In c parameters) columns ->
  exists st',
    fetchChartData_selectedParameter (selectedParameter st) (Some columns) st
    = Normal (tt, st') /\
    (In (selectedParameter st') (parameterOptions columns) \/
     (columns = [] /\ selectedParameter st' = "" /\ parameterOptions columns = [])).
Proof.
  intros Hall. rewrite List.Forall_forall in Hall.
  cbn [fetchChartData_selectedParameter].
  destruct (includes columns (selectedParameter st)) eqn:E; cbn [negb].
  - exists st. split; [reflexivity |]. left.
    apply includes_In in E. apply parameterOptions_In. split; [apply Hall, E | exact E].
  - eexists. split; [reflexivity |]. cbn [selectedParameter].
    destruct columns as [|c cs].
    + right. repeat split; reflexivity.
    + left. apply parameterOptions_In. cbn [first_or_empty].
      split; [apply Hall |]; left; reflexivity.
Qed.

Lemma fetchChartData_selection_offered_example :
  exists st',
    fetchChartData_selectedParameter "metal_temperature"
      (Some ["tilting_speed"; "tilting_angle"]) initial_state
    = Normal (tt, st') /\
    (In (selectedParameter st') (parameterOptions ["tilting_speed"; "tilting_angle"]) \/
     (["tilting_speed"; "tilting_angle"] = [] /\ selectedParameter st' = "" /\
      parameterOptions ["tilting_speed"; "tilting_angle"] = [])).
Proof.
  apply (fetchChartData_selection_offered initial_state ["tilting_speed"; "tilting_angle"]).
  repeat constructor; cbn; tauto.
Defined.

(** X24. The dropdown offers each available one of the five
    parameters once, in the order of [parameters], whatever the order
    and the repetitions of the server's list. *)
Theorem parameterOptions_ordered (availableFeatures : list string) :
  sublist (parameterOptions availableFeatures) parameters /\
  List.NoDup (parameterOptions availableFeatures) /\
  forall p : string,
    In p (parameterOptions availableFeatures) <-> In p parameters /\ In p availableFeatures.
Proof.
  split; [| split].
  - unfold parameterOptions. generalize parameters. intros l.
    induction l as [|a l IH]; [constructor |].
    cbn [List.filter]. destruct (includes availableFeatures a);
      [apply sublist_skip | apply sublist_cons]; exact IH.
  - apply List.NoDup_filter, parameters_NoDup.
  - apply parameterOptions_In.
Qed.
